(** * Data-URI encoding of image files

    A shallow embedding of [convert_to_base64.py] (the command-line
    converter) and of [image_to_base64] from [openrouter-image-python.py],
    with the two standard-library routines they rest on:
    [base64.b64encode] (RFC 4648, section 4) and [os.path.splitext]
    (POSIX flavour).

    Conventions.
    - A Python [bytes] object is a [list byte].
    - A Python [str] is a [string]; its characters are the code points
      U+0000..U+00FF.  Every literal of the program is ASCII.
    - The file system, standard output and standard error form a [world]
      that the functions thread explicitly. *)

From Stdlib Require Import NArith ZArith Lia List Bool.
From Stdlib Require Import Strings.Ascii Strings.String Strings.Byte.
From Stdlib Require Import DecimalString.
Import ListNotations.

Local Open Scope string_scope.
Local Open Scope N_scope.

(** ** Python's [base64] module *)

Module Base64.

(** The 64 symbols, as in [binascii]'s translation table. *)
Definition table_b2a_base64 : string :=
  "ABCDEFGHIJKLMNOPQRSTUVWXYZabcdefghijklmnopqrstuvwxyz0123456789+/".

Definition BASE64_PAD : byte := byte_of_ascii "=".

(** Symbol of a six-bit value. *)
Definition b2a (n : N) : byte :=
  match String.get (N.to_nat n) table_b2a_base64 with
  | Some c => byte_of_ascii c
  | None => BASE64_PAD
  end.

(** The four six-bit groups of three octets, and the groups of a final
    block of one or two octets. *)
Definition sextet0 (a : N) : N := N.shiftr a 2.
Definition sextet1 (a b : N) : N := N.lor (N.shiftl (N.land a 3) 4) (N.shiftr b 4).
Definition sextet2 (b c : N) : N := N.lor (N.shiftl (N.land b 15) 2) (N.shiftr c 6).
Definition sextet3 (c : N) : N := N.land c 63.

(** [base64.b64encode(s)]: no line breaks, [=] padding to a multiple of
    four symbols. *)
Fixpoint b64encode (s : list byte) : list byte :=
  match s with
  | [] => []
  | [a] =>
      let x := Byte.to_N a in
      [b2a (sextet0 x); b2a (sextet1 x 0); BASE64_PAD; BASE64_PAD]
  | [a; b] =>
      let x := Byte.to_N a in
      let y := Byte.to_N b in
      [b2a (sextet0 x); b2a (sextet1 x y); b2a (sextet2 y 0); BASE64_PAD]
  | a :: b :: c :: rest =>
      let x := Byte.to_N a in
      let y := Byte.to_N b in
      let z := Byte.to_N c in
      b2a (sextet0 x) :: b2a (sextet1 x y) :: b2a (sextet2 y z)
        :: b2a (sextet3 z) :: b64encode rest
  end.

(** [bytes.decode('utf-8')] on ASCII input, where it maps every byte to the
    character of the same code.  [None] covers all other input (a
    [UnicodeDecodeError], or text outside the ASCII range); the encoder's
    output never reaches it, see [decode_b64encode]. *)
Definition is_ascii_byte (b : byte) : bool := Byte.to_N b <? 128.

Definition decode_utf8 (bs : list byte) : option string :=
  if forallb is_ascii_byte bs then Some (string_of_list_byte bs) else None.

(** *** A standard decoder (RFC 4648): the inverse table, four symbols
    to three octets, padding accepted in the last block only. *)

Fixpoint index_of (c : ascii) (tbl : string) (i : N) : option N :=
  match tbl with
  | EmptyString => None
  | String d rest => if Ascii.eqb c d then Some i else index_of c rest (i + 1)
  end.

Definition a2b (c : ascii) : option N := index_of c table_b2a_base64 0.

Definition octet (n : N) : byte :=
  match Byte.of_N (N.land n 255) with
  | Some b => b
  | None => x00
  end.

Definition octet0 (v0 v1 : N) : byte := octet (N.lor (N.shiftl v0 2) (N.shiftr v1 4)).
Definition octet1 (v1 v2 : N) : byte := octet (N.lor (N.shiftl (N.land v1 15) 4) (N.shiftr v2 2)).
Definition octet2 (v2 v3 : N) : byte := octet (N.lor (N.shiftl (N.land v2 3) 6) v3).

Definition is_pad (c : ascii) : bool := Ascii.eqb c "=".

Fixpoint b64decode (s : string) : option (list byte) :=
  match s with
  | EmptyString => Some []
  | String c0 (String c1 (String c2 (String c3 rest))) =>
      match a2b c0, a2b c1 with
      | Some v0, Some v1 =>
          match rest with
          | EmptyString =>
              if is_pad c2 && is_pad c3 then
                if N.land v1 15 =? 0 then Some [octet0 v0 v1] else None
              else if is_pad c3 then
                match a2b c2 with
                | Some v2 =>
                    if N.land v2 3 =? 0
                    then Some [octet0 v0 v1; octet1 v1 v2] else None
                | None => None
                end
              else
                match a2b c2, a2b c3 with
                | Some v2, Some v3 =>
                    Some [octet0 v0 v1; octet1 v1 v2; octet2 v2 v3]
                | _, _ => None
                end
          | _ =>
              match a2b c2, a2b c3, b64decode rest with
              | Some v2, Some v3, Some tl =>
                  Some (octet0 v0 v1 :: octet1 v1 v2 :: octet2 v2 v3 :: tl)
              | _, _, _ => None
              end
          end
      | _, _ => None
      end
  | _ => None
  end.

End Base64.

(** ** [os.path.splitext] and [str.lower] *)

Module OsPath.

Local Open Scope Z_scope.

(** [p.rfind(c)]: the index of the last [c] in [p], or [-1]. *)
Fixpoint rfind_from (c : ascii) (p : string) (i last : Z) : Z :=
  match p with
  | EmptyString => last
  | String d rest => rfind_from c rest (i + 1) (if Ascii.eqb d c then i else last)
  end.

Definition rfind (p : string) (c : ascii) : Z := rfind_from c p 0 (-1).

(** The slices [p[i:j]] and [p[i:]], for [0 <= i]. *)
Definition slice (p : string) (i j : Z) : string :=
  substring (Z.to_nat i) (Z.to_nat (j - i)) p.

Definition slice_from (p : string) (i : Z) : string :=
  substring (Z.to_nat i) (String.length p - Z.to_nat i) p.

(** The loop of [genericpath._splitext] that skips the leading dots of the
    file name: [true] as soon as a character of
    [p[filenameIndex:dotIndex]] differs from the dot. *)
Fixpoint finds_non_dot (p : string) (filenameIndex : Z) (steps : nat) : bool :=
  match steps with
  | O => false
  | S steps' =>
      if negb (String.eqb (slice p filenameIndex (filenameIndex + 1)) ".")
      then true
      else finds_non_dot p (filenameIndex + 1) steps'
  end.

(** [os.path.splitext(p)] of [posixpath]: separator [/], no alternative
    separator, extension separator [.]. *)
Definition splitext (p : string) : string * string :=
  let sepIndex := rfind p "/" in
  let dotIndex := rfind p "." in
  if dotIndex >? sepIndex then
    let filenameIndex := sepIndex + 1 in
    if finds_non_dot p filenameIndex (Z.to_nat (dotIndex - filenameIndex))
    then (slice p 0 dotIndex, slice_from p dotIndex)
    else (p, "")
  else (p, "").

End OsPath.

(** [str.lower()] on U+0000..U+00FF: the letters [A]-[Z] and the capital
    letters of the Latin-1 block (U+00C0..U+00DE but the multiplication
    sign U+00D7) move up by 32; every other character stays. *)
Definition is_upper (c : ascii) : bool :=
  let n := N_of_ascii c in
  ((65 <=? n) && (n <=? 90)) || ((192 <=? n) && (n <=? 222) && negb (n =? 215)).

Definition lower_char (c : ascii) : ascii :=
  if is_upper c then ascii_of_N (N_of_ascii c + 32) else c.

Fixpoint lower (s : string) : string :=
  match s with
  | EmptyString => EmptyString
  | String c rest => String (lower_char c) (lower rest)
  end.

(** A dict literal with [str] keys, and [dict.get(key, default)]. *)
Definition dict : Type := list (string * string).

Fixpoint dict_get (d : dict) (key default : string) : string :=
  match d with
  | [] => default
  | (k, v) :: rest => if String.eqb k key then v else dict_get rest key default
  end.

(** ** The world the scripts run in *)

(** What [open] and [read] raise: an error of the [OSError] family when
    the operating system refuses, and a [ValueError] (embedded null byte),
    before any system call, when the path holds a NUL character. *)
Inductive os_error_class : Type :=
  | FileNotFoundError
  | PermissionError
  | IsADirectoryError
  | OtherOSError.

Record os_error : Type := mk_os_error {
  err_class : os_error_class;
  err_str : string                 (* [str(e)] *)
}.

Inductive exception : Type :=
  | OSError (e : os_error)
  | UnicodeDecodeError
  | ValueError (msg : string).

Definition str_exception (e : exception) : string :=
  match e with
  | OSError e => err_str e
  | UnicodeDecodeError => "'utf-8' codec can't decode bytes"
  | ValueError msg => msg
  end.

(** The two kinds of failure the specification speaks of. *)
Inductive error_kind : Type := NotFound | IOError.

Definition kind_of (e : os_error) : error_kind :=
  match err_class e with
  | FileNotFoundError => NotFound
  | _ => IOError
  end.

(** The kind of an exception, when it has one of the two. *)
Definition exception_kind (e : exception) : option error_kind :=
  match e with
  | OSError e => Some (kind_of e)
  | UnicodeDecodeError => None
  | ValueError _ => None
  end.

Record world : Type := mk_world {
  path_exists : string -> bool;              (* [Path(p).exists()] *)
  read_bytes : string -> list byte + exception;
                                             (* [open(p, 'rb')] then [read()] *)
  open_w : string -> option os_error;        (* what [open(p, 'w')] raises *)
  stdout : list string;                      (* one entry per [print] *)
  stderr : list string
}.

(** State passing, with the usual notation. *)
Definition M (A : Type) : Type := world -> A * world.

Definition ret {A : Type} (a : A) : M A := fun w => (a, w).

Definition bind {A B : Type} (m : M A) (k : A -> M B) : M B :=
  fun w => let (a, w') := m w in k a w'.

Notation "x <- m ;; k" := (bind m (fun x => k))
  (at level 61, m at next level, right associativity).
Notation "m ;;; k" := (bind m (fun _ => k))
  (at level 61, right associativity).

Definition print (line : string) : M unit :=
  fun w => (tt, mk_world (path_exists w) (read_bytes w) (open_w w)
                         (stdout w ++ [line]) (stderr w)).

Definition print_stderr (line : string) : M unit :=
  fun w => (tt, mk_world (path_exists w) (read_bytes w) (open_w w)
                         (stdout w) (stderr w ++ [line])).

(** [with open(p, 'rb') as f: f.read()]. *)
Definition open_read (p : string) : M (list byte + exception) :=
  fun w => (read_bytes w p, w).

(** [with open(p, 'w') as f: f.write(text)]: on success the file holds the
    text (ASCII here, so one byte per character) and exists.  A file is
    named by its path as it is written: another spelling of the path, or a
    link to the file, is another name, which the write does not reach.
    An exception raised after [open] has succeeded is not modelled. *)
Definition open_write (p text : string) : M (option os_error) :=
  fun w =>
    match open_w w p with
    | Some e => (Some e, w)
    | None =>
        (None,
         mk_world (fun q => if String.eqb q p then true else path_exists w q)
                  (fun q => if String.eqb q p
                            then inl (list_byte_of_string text)
                            else read_bytes w q)
                  (open_w w) (stdout w) (stderr w))
    end.

(** [Path(p).exists()], where it answers: [False] for a path that is
    missing (or holds a NUL character), [True] for one that is there.  It
    raises again any other [OSError], such as the [PermissionError] of a
    directory that cannot be searched; a run that ends that way, with a
    traceback, is outside this model. *)
Definition exists_ (p : string) : M bool := fun w => (path_exists w p, w).

(** ** [convert_to_base64.py] *)

Definition nl : string := String "010" EmptyString.
Definition dquote : string := String "034" EmptyString.

(** The dict literal of [convert_image_to_base64]. *)
Definition mime_types : dict :=
  [ (".png", "image/png");
    (".jpg", "image/jpeg");
    (".jpeg", "image/jpeg");
    (".gif", "image/gif");
    (".webp", "image/webp");
    (".bmp", "image/bmp") ].

Definition mime_type_of (image_path : string) : string :=
  let file_ext := lower (snd (OsPath.splitext image_path)) in
  dict_get mime_types file_ext "application/octet-stream".

Definition data_uri (mime_type base64_data : string) : string :=
  "data:" ++ mime_type ++ ";base64," ++ base64_data.

(** [None] is Python's [None]. *)
Definition convert_image_to_base64 (image_path : string) : M (option string) :=
  let mime_type := mime_type_of image_path in
  r <- open_read image_path ;;
  match r with
  | inl img_data =>
      match Base64.decode_utf8 (Base64.b64encode img_data) with
      | Some base64_data => ret (Some (data_uri mime_type base64_data))
      | None =>
          print_stderr ("Error: " ++ str_exception UnicodeDecodeError) ;;;
          ret None
      end
  | inr e =>
      print_stderr ("Error: " ++ str_exception e) ;;;
      ret None
  end.

Definition save_base64_to_file (base64_data output_path : string) : M bool :=
  r <- open_write output_path base64_data ;;
  match r with
  | None =>
      print ("Base64 data saved to " ++ output_path) ;;;
      ret true
  | Some e =>
      print_stderr ("Error saving file: " ++ str_exception (OSError e)) ;;;
      ret false
  end.

(** The namespace [parser.parse_args()] returns. *)
Record args : Type := mk_args {
  arg_image_path : string;
  arg_output : option string
}.

(** Truth value of [args.output]: given and not empty. *)
Definition truthy (o : option string) : bool :=
  match o with
  | Some s => negb (String.eqb s "")
  | None => false
  end.

Definition str_of_nat (n : nat) : string :=
  NilEmpty.string_of_uint (Nat.to_uint n).

(** [s[:n]]. *)
Definition take (n : nat) (s : string) : string := substring 0 n s.

Definition preview (base64_data : string) : string :=
  if (100 <? String.length base64_data)%nat
  then take 100 base64_data ++ "..."
  else base64_data.

Definition usage_hint (base64_data : string) : string :=
  nl ++ "{" ++ nl ++ "  " ++ dquote ++ "images" ++ dquote ++ ": [" ++ nl
  ++ "    {" ++ nl ++ "      " ++ dquote ++ "url" ++ dquote ++ ": " ++ dquote
  ++ take 20 base64_data ++ "... (full base64 string)" ++ dquote ++ " "
  ++ nl ++ "    }" ++ nl ++ "  ]," ++ nl
  ++ "  " ++ dquote ++ "prompt" ++ dquote ++ ": " ++ dquote
  ++ "Please describe this image in detail. What does it show?" ++ dquote
  ++ "," ++ nl
  ++ "  " ++ dquote ++ "model" ++ dquote ++ ": " ++ dquote
  ++ "qwen/qwen2.5-vl-32b-instruct:free" ++ dquote ++ nl ++ "}" ++ nl.

(** [main], from the namespace that [parse_args] has returned (on a usage
    error [parse_args] ends the run itself, with status 2, before any of
    this); the value returned is the exit status ([sys.exit(main())]). *)
Definition main (a : args) : M Z :=
  found <- exists_ (arg_image_path a) ;;
  if negb found then
    print_stderr ("Error: File not found: " ++ arg_image_path a) ;;;
    ret 1%Z
  else
    base64_data <- convert_image_to_base64 (arg_image_path a) ;;
    match base64_data with
    | None => ret 1%Z
    | Some base64_data =>
        if String.eqb base64_data "" then ret 1%Z
        else if truthy (arg_output a) then
          success <- save_base64_to_file base64_data
                       (match arg_output a with Some o => o | None => "" end) ;;
          if negb success then ret 1%Z else ret 0%Z
        else
          print (nl ++ "Base64 Image Data:") ;;;
          print (preview base64_data) ;;;
          print (nl ++ "Total length: " ++ str_of_nat (String.length base64_data)) ;;;
          print (nl ++ "To use with MCP server in multi_image_analysis:") ;;;
          print (usage_hint base64_data) ;;;
          ret 0%Z
    end.

(** ** [openrouter-image-python.py] *)

Inductive outcome (A : Type) : Type :=
  | Returned (a : A)
  | Raised (e : exception).
Arguments Returned {A} a.
Arguments Raised {A} e.

Section ImageToBase64.

(** [mimetypes.guess_type(path)[0]]: the platform's table of media types,
    not part of the program. *)
Variable guess_type : string -> option string.

Definition guessed_mime_type (image_path : string) : string :=
  match guess_type image_path with
  | Some mime_type =>
      if String.eqb mime_type "" then "application/octet-stream" else mime_type
  | None => "application/octet-stream"
  end.

Definition image_to_base64 (image_path : string) : M (outcome string) :=
  let mime_type := guessed_mime_type image_path in
  r <- open_read image_path ;;
  match r with
  | inl data =>
      match Base64.decode_utf8 (Base64.b64encode data) with
      | Some encoded_string => ret (Returned (data_uri mime_type encoded_string))
      | None =>
          print ("Error converting image to base64: "
                 ++ str_exception UnicodeDecodeError) ;;;
          ret (Raised UnicodeDecodeError)
      end
  | inr e =>
      print ("Error converting image to base64: " ++ str_exception e) ;;;
      ret (Raised e)
  end.

End ImageToBase64.

(** ** Reading a URI back *)

Record EncodedResource : Type := mk_resource {
  media_type : string;
  payload : string
}.

Definition uri (r : EncodedResource) : string :=
  data_uri (media_type r) (payload r).

Fixpoint string_forall (f : ascii -> bool) (s : string) : bool :=
  match s with
  | EmptyString => true
  | String c rest => f c && string_forall f rest
  end.

(** [c not in s]. *)
Definition lacks (c : ascii) (s : string) : bool :=
  string_forall (fun d => negb (Ascii.eqb d c)) s.

(** Number of positions of [s] at which [sub] occurs. *)
Fixpoint count_sub (sub s : string) : nat :=
  match s with
  | EmptyString => if prefix sub s then 1 else 0
  | String _ rest => (if prefix sub s then 1 else 0) + count_sub sub rest
  end.

(** [s.partition(sep)]: the text before and after the first [sep]. *)
Fixpoint partition (sep s : string) : option (string * string) :=
  if prefix sep s
  then Some ("", substring (String.length sep) (String.length s - String.length sep) s)
  else
    match s with
    | EmptyString => None
    | String c rest =>
        match partition sep rest with
        | Some (before, after) => Some (String c before, after)
        | None => None
        end
    end.

(** The scheme, then the media type up to the [;base64,] separator, then
    the payload. *)
Definition parse_data_uri (u : string) : option EncodedResource :=
  if prefix "data:" u then
    match partition ";base64," (substring 5 (String.length u - 5) u) with
    | Some (m, p) => Some (mk_resource m p)
    | None => None
    end
  else None.

(** What a consumer reads in a returned URI. *)
Definition result_resource (result : option string) : option EncodedResource :=
  match result with
  | Some u => parse_data_uri u
  | None => None
  end.

Definition result_media_type (result : option string) : option string :=
  option_map media_type (result_resource result).

Definition result_payload (result : option string) : option string :=
  option_map payload (result_resource result).

(** The payload of a result, put through the decoder. *)
Definition result_decoded (result : option string) : option (list byte) :=
  match result_payload result with
  | Some p => Base64.b64decode p
  | None => None
  end.

Definition returned {A : Type} (o : outcome A) : option A :=
  match o with
  | Returned a => Some a
  | Raised _ => None
  end.

(** The payload of a file's bytes, as text: [b64encode(...)] read as a
    [str]. *)
Definition payload_of_bytes (data : list byte) : string :=
  string_of_list_byte (Base64.b64encode data).

(** A URI that stands for the whole of [data]: it reads back as a media
    type and a payload, is rebuilt from them, and the payload decodes to
    [data]. *)
Definition valid_resource (u : string) (data : list byte) : Prop :=
  exists r : EncodedResource,
    parse_data_uri u = Some r /\ uri r = u /\ Base64.b64decode (payload r) = Some data.

(** The symbols a payload may hold. *)
Definition is_base64_char (c : ascii) : bool :=
  match Base64.a2b c with
  | Some _ => true
  | None => Base64.is_pad c
  end.

(** [ceil(n / 3)]. *)
Definition ceil_div3 (n : nat) : nat := (n + 2) / 3.

(** ** The table of the specification, and letter case *)

(** The media types of the specification's table, by lower-cased suffix. *)
Definition table_media_type (suffix : string) : string :=
  if String.eqb suffix ".png" then "image/png"
  else if String.eqb suffix ".jpg" || String.eqb suffix ".jpeg" then "image/jpeg"
  else if String.eqb suffix ".gif" then "image/gif"
  else if String.eqb suffix ".webp" then "image/webp"
  else if String.eqb suffix ".bmp" then "image/bmp"
  else "application/octet-stream".

(** Two characters, then two paths, that differ in case only. *)
Definition case_variant (c d : ascii) : Prop :=
  c = d \/ d = lower_char c \/ c = lower_char d.

Inductive recased : string -> string -> Prop :=
  | recased_empty : recased EmptyString EmptyString
  | recased_char c d s t :
      case_variant c d -> recased s t -> recased (String c s) (String d t).

(** ** Worlds *)

(** The files of a world, as a program can observe them. *)
Definition same_files (w w' : world) : Prop :=
  (forall p, path_exists w' p = path_exists w p)
  /\ (forall p, read_bytes w' p = read_bytes w p)
  /\ (forall p, open_w w' p = open_w w p).

(** A path with a NUL character in it. *)
Definition has_nul (p : string) : bool := negb (lacks "000" p).

(** [open] as Python has it: a path with a NUL character is refused with
    a [ValueError] before the file system is asked. *)
Definition python_open (w : world) : Prop :=
  forall p, has_nul p = true ->
            read_bytes w p = inr (ValueError "embedded null byte").

(** A world with nothing in it but the given files; the listed paths
    cannot be opened for writing. *)
Definition world_of (files : list (string * list byte))
                    (unwritable : list string) : world :=
  mk_world
    (fun p => existsb (fun f => String.eqb (fst f) p) files)
    (fun p =>
       if has_nul p then inr (ValueError "embedded null byte")
       else
         match find (fun f => String.eqb (fst f) p) files with
         | Some f => inl (snd f)
         | None => inr (OSError
                          (mk_os_error FileNotFoundError
                             ("[Errno 2] No such file or directory: '" ++ p ++ "'")))
         end)
    (fun p => if existsb (String.eqb p) unwritable then
                Some (mk_os_error PermissionError
                        ("[Errno 13] Permission denied: '" ++ p ++ "'"))
              else None)
    [] [].

(** A small world for the examples: a two-byte picture, an empty one, a
    text file, and a place that cannot be written. *)
Definition example_world : world :=
  world_of
    [ ("photo.JPG", [xff; xd8]);
      ("empty.png", []);
      ("notes.txt", list_byte_of_string "hi") ]
    [ "/readonly/out.txt" ].

(** A file name with a NUL character between [shot] and [.png]. *)
Definition nul_path : string := "shot" ++ String "000" ".png".

(** The entries of the table [mimetypes] ships with for a few suffixes,
    looked up as [guess_type] does for a plain path: the suffix as it
    is, then lower-cased. *)
Definition types_map : dict :=
  [ (".txt", "text/plain");
    (".png", "image/png");
    (".jpg", "image/jpeg");
    (".gif", "image/gif") ].

Definition guess_type_of (d : dict) (path : string) : option string :=
  let ext := snd (OsPath.splitext path) in
  let found := dict_get d ext (dict_get d (lower ext) "") in
  if String.eqb found "" then None else Some found.

(** ** What a run of [main] leaves behind *)

(** The content of a file, read as text (one character per byte). *)
Definition file_text (w : world) (p : string) : option string :=
  match read_bytes w p with
  | inl bs => Some (string_of_list_byte bs)
  | inr _ => None
  end.

(** A printable ASCII character other than the space, the double quote and
    the backslash: it needs no escaping inside a JSON string. *)
Definition is_plain_char (c : ascii) : bool :=
  let n := N_of_ascii c in
  (33 <=? n) && (n <=? 126) && negb (n =? 34) && negb (n =? 92).

(** [s.count(c)] for a single character. *)
Fixpoint count_char (c : ascii) (s : string) : nat :=
  match s with
  | EmptyString => 0%nat
  | String d rest => ((if Ascii.eqb d c then 1 else 0) + count_char c rest)%nat
  end.

(** Padding signs after [n] bytes: none, two or one as [n mod 3] is 0, 1
    or 2. *)
Definition pad_count (n : nat) : nat := ((3 - n mod 3) mod 3)%nat.

(** ** [str.strip()] *)

(** [str.isspace()] on U+0000..U+00FF. *)
Definition is_space (c : ascii) : bool :=
  let n := N_of_ascii c in
  ((9 <=? n) && (n <=? 13)) || ((28 <=? n) && (n <=? 32))
  || (n =? 133) || (n =? 160).

Fixpoint lstrip (s : string) : string :=
  match s with
  | EmptyString => EmptyString
  | String c rest => if is_space c then lstrip rest else s
  end.

Fixpoint rstrip (s : string) : string :=
  match s with
  | EmptyString => EmptyString
  | String c rest =>
      match rstrip rest with
      | EmptyString => if is_space c then EmptyString else String c EmptyString
      | kept => String c kept
      end
  end.

Definition strip (s : string) : string := rstrip (lstrip s).

(** ** [openrouter-image-python.py]: [main] and
    [send_image_from_base64_file] *)

Module OpenrouterImage.

Definition IMAGE_PATH : string := "path/to/your/image.jpg".

(** The default of the [question] arguments. *)
Definition default_question : string := "What's in this image?".

(** What [client.chat.completions.create] is called with: the model, the
    [default_headers] of the client, and the one user message with its
    text part and its image part. *)
Record chat_request : Type := mk_chat_request {
  req_model : string;
  req_default_headers : list (string * string);
  req_text : string;
  req_image_url : string
}.

Section Script.

Variable guess_type : string -> option string.

(** [send_image_direct_api] and [send_image_openai_sdk]: each talks to the
    remote service and prints what comes back; each catches every
    [Exception] in its own body, so none leaves it. *)
Variable send_image_direct_api : string -> string -> M unit.
Variable send_image_openai_sdk : string -> string -> M unit.

Definition main : M unit :=
  r <- image_to_base64 guess_type IMAGE_PATH ;;
  match r with
  | Returned base64_image =>
      print "Image converted to base64 successfully" ;;;
      send_image_direct_api base64_image default_question ;;;
      send_image_openai_sdk base64_image default_question
  | Raised e => print ("Error in main function: " ++ str_exception e)
  end.

(** The remote side of [send_image_from_base64_file], and the text-mode
    read: [with open(p, "r") as file: file.read()], the construction of
    the client with the call of [create] (a completion, or the [str] of
    the exception raised), and [completion.choices[0].message.content] as
    [print] shows it (or the [str] of the exception raised). *)
Variable completion : Type.
Variable read_text : string -> M (string + exception).
Variable create : chat_request -> M (completion + string).
Variable content : completion -> string + string.

(** From the call of [create] to the end of the [try] statement. *)
Definition request_and_report (request : chat_request) : M unit :=
  c <- create request ;;
  match c with
  | inl answer =>
      print "Response when using base64 file:" ;;;
      match content answer with
      | inl text => print text
      | inr e => print ("Error sending image from base64 file: " ++ e)
      end
  | inr e => print ("Error sending image from base64 file: " ++ e)
  end.

Definition send_image_from_base64_file (base64_file_path question : string)
  : M unit :=
  print "Sending image from base64 file..." ;;;
  r <- read_text base64_file_path ;;
  match r with
  | inl text =>
      let base64_data := strip text in
      request_and_report
        (mk_chat_request "anthropic/claude-3-opus" [] question base64_data)
  | inr e =>
      print ("Error sending image from base64 file: " ++ str_exception e)
  end.

End Script.

End OpenrouterImage.

(** * Properties *)

(** ** The encoder and the decoder on known values *)

Example b64encode_Man :
  Base64.decode_utf8 (Base64.b64encode (list_byte_of_string "Man")) = Some "TWFu".
Proof. reflexivity. Qed.

Example b64encode_Ma :
  Base64.decode_utf8 (Base64.b64encode (list_byte_of_string "Ma")) = Some "TWE=".
Proof. reflexivity. Qed.

Example b64encode_M :
  Base64.decode_utf8 (Base64.b64encode (list_byte_of_string "M")) = Some "TQ==".
Proof. reflexivity. Qed.

Example b64encode_jpeg_magic :
  Base64.decode_utf8 (Base64.b64encode [xff; xd8; xff]) = Some "/9j/".
Proof. reflexivity. Qed.

Example b64decode_TWE : Base64.b64decode "TWE=" = Some (list_byte_of_string "Ma").
Proof. reflexivity. Qed.

Example b64decode_short : Base64.b64decode "TWE" = None.
Proof. reflexivity. Qed.

(** ** Exhaustive checks below a bound *)

Lemma N_forall_below (P : N -> bool) (n : nat) :
  forallb P (map N.of_nat (seq 0 n)) = true ->
  forall x, x < N.of_nat n -> P x = true.
Proof.
  intros Hall x Hx.
  rewrite forallb_forall in Hall. apply Hall.
  rewrite <- (N2Nat.id x). apply in_map. apply in_seq. lia.
Qed.

Lemma N_forall2_below (Q : N -> N -> bool) (n m : nat) :
  forallb (fun x => forallb (Q x) (map N.of_nat (seq 0 m)))
          (map N.of_nat (seq 0 n)) = true ->
  forall x y, x < N.of_nat n -> y < N.of_nat m -> Q x y = true.
Proof.
  intros Hall x y Hx Hy.
  apply (N_forall_below (Q x) m); [|exact Hy].
  apply (N_forall_below (fun x => forallb (Q x) (map N.of_nat (seq 0 m))) n Hall x Hx).
Qed.

Ltac check_below1 x Hx :=
  apply N.eqb_eq; revert x Hx;
  apply (N_forall_below _ 256); vm_compute; reflexivity.

Ltac check_below2 x y Hx Hy :=
  apply N.eqb_eq; revert x y Hx Hy;
  apply (N_forall2_below (fun x y => _ =? _) 256 256); vm_compute; reflexivity.

Lemma to_N_lt_256 (b : byte) : Byte.to_N b < 256.
Proof. pose proof (Byte.to_N_bounded b). lia. Qed.

(** ** Six-bit groups *)

Section Sextets.

Import Base64.

Lemma sextet0_lt x : x < 256 -> sextet0 x < 64.
Proof.
  intros Hx. apply N.ltb_lt. revert x Hx.
  apply (N_forall_below _ 256). vm_compute. reflexivity.
Qed.

Lemma sextet1_lt x y : x < 256 -> y < 256 -> sextet1 x y < 64.
Proof.
  intros Hx Hy. apply N.ltb_lt. revert x y Hx Hy.
  apply (N_forall2_below (fun x y => _ <? _) 256 256). vm_compute. reflexivity.
Qed.

Lemma sextet2_lt y z : y < 256 -> z < 256 -> sextet2 y z < 64.
Proof.
  intros Hy Hz. apply N.ltb_lt. revert y z Hy Hz.
  apply (N_forall2_below (fun x y => _ <? _) 256 256). vm_compute. reflexivity.
Qed.

Lemma sextet3_lt z : z < 256 -> sextet3 z < 64.
Proof.
  intros Hz. apply N.ltb_lt. revert z Hz.
  apply (N_forall_below _ 256). vm_compute. reflexivity.
Qed.

Lemma join0 x y :
  x < 256 -> y < 256 ->
  N.land (N.lor (N.shiftl (sextet0 x) 2) (N.shiftr (sextet1 x y) 4)) 255 = x.
Proof. intros Hx Hy. check_below2 x y Hx Hy. Qed.

Lemma sextet1_low x y : x < 256 -> y < 256 -> N.land (sextet1 x y) 15 = N.shiftr y 4.
Proof. intros Hx Hy. check_below2 x y Hx Hy. Qed.

Lemma sextet2_high y z : y < 256 -> z < 256 -> N.shiftr (sextet2 y z) 2 = N.land y 15.
Proof. intros Hy Hz. check_below2 y z Hy Hz. Qed.

Lemma sextet2_low y z : y < 256 -> z < 256 -> N.land (sextet2 y z) 3 = N.shiftr z 6.
Proof. intros Hy Hz. check_below2 y z Hy Hz. Qed.

Lemma join1 y :
  y < 256 -> N.land (N.lor (N.shiftl (N.shiftr y 4) 4) (N.land y 15)) 255 = y.
Proof. intros Hy. check_below1 y Hy. Qed.

Lemma join2 z :
  z < 256 -> N.land (N.lor (N.shiftl (N.shiftr z 6) 6) (sextet3 z)) 255 = z.
Proof. intros Hz. check_below1 z Hz. Qed.

Lemma octet_to_N (n : N) (b : byte) : N.land n 255 = Byte.to_N b -> octet n = b.
Proof. intros H. unfold octet. rewrite H, Byte.of_to_N. reflexivity. Qed.

Lemma octet0_sextets (a : byte) (y : N) :
  y < 256 -> octet0 (sextet0 (Byte.to_N a)) (sextet1 (Byte.to_N a) y) = a.
Proof.
  intros Hy. apply octet_to_N. apply join0; [apply to_N_lt_256 | exact Hy].
Qed.

Lemma octet1_sextets (x : N) (b : byte) (z : N) :
  x < 256 -> z < 256 ->
  octet1 (sextet1 x (Byte.to_N b)) (sextet2 (Byte.to_N b) z) = b.
Proof.
  intros Hx Hz. apply octet_to_N.
  pose proof (to_N_lt_256 b) as Hb.
  rewrite sextet1_low, sextet2_high by assumption.
  apply join1; exact Hb.
Qed.

Lemma octet2_sextets (y : N) (c : byte) :
  y < 256 -> octet2 (sextet2 y (Byte.to_N c)) (sextet3 (Byte.to_N c)) = c.
Proof.
  intros Hy. apply octet_to_N.
  pose proof (to_N_lt_256 c) as Hc.
  rewrite sextet2_low by assumption.
  apply join2; exact Hc.
Qed.

(** The translation table and its inverse. *)

Lemma a2b_b2a n : n < 64 -> a2b (ascii_of_byte (b2a n)) = Some n.
Proof.
  intros Hn.
  assert (H : (match a2b (ascii_of_byte (b2a n)) with
               | Some m => m =? n | None => false end) = true).
  { revert n Hn. apply (N_forall_below _ 64). vm_compute. reflexivity. }
  destruct (a2b (ascii_of_byte (b2a n))); [|discriminate].
  apply N.eqb_eq in H. subst. reflexivity.
Qed.

Lemma is_pad_b2a n : n < 64 -> is_pad (ascii_of_byte (b2a n)) = false.
Proof.
  intros Hn. apply negb_true_iff. revert n Hn.
  apply (N_forall_below _ 64). vm_compute. reflexivity.
Qed.

Lemma is_ascii_b2a n : n < 64 -> is_ascii_byte (b2a n) = true.
Proof.
  intros Hn. revert n Hn. apply (N_forall_below _ 64). vm_compute. reflexivity.
Qed.

End Sextets.

(** ** The encoder [b64encode] *)

Section ThreeByThree.

Variable A : Type.
Variable P : list A -> Prop.
Hypothesis P0 : P [].
Hypothesis P1 : forall a, P [a].
Hypothesis P2 : forall a b, P [a; b].
Hypothesis P3 : forall a b c l, P l -> P (a :: b :: c :: l).

Lemma list_ind3 : forall l, P l.
Proof.
  assert (H : forall l, P l /\ (forall a, P (a :: l)) /\ (forall a b, P (a :: b :: l))).
  { induction l as [|c l [IH0 [IH1 IH2]]].
    - repeat split; auto.
    - repeat split; auto. }
  intros l. apply H.
Qed.

End ThreeByThree.

Section Encoder.

Import Base64.

Lemma string_of_list_byte_cons (b : byte) (l : list byte) :
  string_of_list_byte (b :: l) = String (ascii_of_byte b) (string_of_list_byte l).
Proof. reflexivity. Qed.

Lemma length_string_of_list_byte (l : list byte) :
  String.length (string_of_list_byte l) = List.length l.
Proof.
  induction l as [|b l IH]; [reflexivity|].
  rewrite string_of_list_byte_cons. simpl. rewrite IH. reflexivity.
Qed.

Lemma b64encode_three a b c rest :
  b64encode (a :: b :: c :: rest) =
  b2a (sextet0 (Byte.to_N a))
    :: b2a (sextet1 (Byte.to_N a) (Byte.to_N b))
    :: b2a (sextet2 (Byte.to_N b) (Byte.to_N c))
    :: b2a (sextet3 (Byte.to_N c)) :: b64encode rest.
Proof. reflexivity. Qed.

Lemma length_b64encode (s : list byte) :
  List.length (b64encode s) = (4 * ceil_div3 (List.length s))%nat.
Proof.
  unfold ceil_div3.
  induction s as [| a | a b | a b c l IH] using list_ind3; try reflexivity.
  rewrite b64encode_three. cbn [List.length]. rewrite IH.
  replace (S (S (S (List.length l))) + 2)%nat
    with (List.length l + 2 + 1 * 3)%nat by lia.
  rewrite Nat.div_add by discriminate. lia.
Qed.

Lemma b64encode_ascii (s : list byte) : forallb is_ascii_byte (b64encode s) = true.
Proof.
  induction s as [| a | a b | a b c l IH] using list_ind3.
  - reflexivity.
  - pose proof (to_N_lt_256 a).
    cbn [b64encode forallb]. rewrite !is_ascii_b2a; [reflexivity| |].
    + apply sextet1_lt; [assumption|reflexivity].
    + apply sextet0_lt; assumption.
  - pose proof (to_N_lt_256 a). pose proof (to_N_lt_256 b).
    cbn [b64encode forallb]. rewrite !is_ascii_b2a; [reflexivity| | |].
    + apply sextet2_lt; [assumption|reflexivity].
    + apply sextet1_lt; assumption.
    + apply sextet0_lt; assumption.
  - pose proof (to_N_lt_256 a). pose proof (to_N_lt_256 b).
    pose proof (to_N_lt_256 c).
    rewrite b64encode_three. cbn [forallb]. rewrite IH.
    rewrite !is_ascii_b2a; [reflexivity| | | |].
    + apply sextet3_lt; assumption.
    + apply sextet2_lt; assumption.
    + apply sextet1_lt; assumption.
    + apply sextet0_lt; assumption.
Qed.

(** The [decode('utf-8')] step never fails on the encoder's output. *)
Lemma decode_b64encode (s : list byte) :
  decode_utf8 (b64encode s) = Some (payload_of_bytes s).
Proof. unfold decode_utf8. rewrite b64encode_ascii. reflexivity. Qed.

Lemma length_payload_of_bytes (s : list byte) :
  String.length (payload_of_bytes s) = (4 * ceil_div3 (List.length s))%nat.
Proof.
  unfold payload_of_bytes. rewrite length_string_of_list_byte.
  apply length_b64encode.
Qed.

End Encoder.

(** ** The decoder undoes the encoder *)

Section RoundTrip.

Import Base64.

Lemma b64decode_block c0 c1 c2 c3 rest v0 v1 v2 v3 :
  a2b c0 = Some v0 -> a2b c1 = Some v1 -> a2b c2 = Some v2 -> a2b c3 = Some v3 ->
  is_pad c2 = false -> is_pad c3 = false ->
  b64decode (String c0 (String c1 (String c2 (String c3 rest)))) =
  match rest with
  | EmptyString => Some [octet0 v0 v1; octet1 v1 v2; octet2 v2 v3]
  | _ =>
      match b64decode rest with
      | Some tl => Some (octet0 v0 v1 :: octet1 v1 v2 :: octet2 v2 v3 :: tl)
      | None => None
      end
  end.
Proof.
  intros H0 H1 H2 H3 Hp2 Hp3.
  destruct rest as [|r rest].
  - cbn [b64decode]. rewrite H0, H1, H2, H3, Hp2, Hp3. reflexivity.
  - remember (String r rest) as tl eqn:Etl.
    cbn [b64decode]. rewrite H0, H1. rewrite Etl at 1. rewrite H2, H3.
    reflexivity.
Qed.

Lemma b64decode_one c0 c1 v0 v1 :
  a2b c0 = Some v0 -> a2b c1 = Some v1 -> N.land v1 15 = 0 ->
  b64decode (String c0 (String c1 "==")) = Some [octet0 v0 v1].
Proof.
  intros H0 H1 Hz. cbn [b64decode]. rewrite H0, H1.
  change (is_pad "=") with true. cbn [andb]. rewrite Hz. reflexivity.
Qed.

Lemma b64decode_two c0 c1 c2 v0 v1 v2 :
  a2b c0 = Some v0 -> a2b c1 = Some v1 -> a2b c2 = Some v2 ->
  is_pad c2 = false -> N.land v2 3 = 0 ->
  b64decode (String c0 (String c1 (String c2 "="))) =
  Some [octet0 v0 v1; octet1 v1 v2].
Proof.
  intros H0 H1 H2 Hp Hz. cbn [b64decode]. rewrite H0, H1, Hp.
  change (is_pad "=") with true. cbn [andb]. rewrite H2, Hz. reflexivity.
Qed.

Lemma b64decode_b64encode (s : list byte) :
  b64decode (payload_of_bytes s) = Some s.
Proof.
  unfold payload_of_bytes.
  induction s as [| a | a b | a b c l IH] using list_ind3.
  - reflexivity.
  - pose proof (to_N_lt_256 a) as Ha.
    assert (H0 : (0 < 256)%N) by reflexivity.
    cbn [b64encode]. rewrite !string_of_list_byte_cons.
    change (string_of_list_byte []) with EmptyString.
    change (ascii_of_byte BASE64_PAD) with "="%char.
    rewrite (b64decode_one _ _ (sextet0 (Byte.to_N a)) (sextet1 (Byte.to_N a) 0)).
    + rewrite octet0_sextets by exact H0. reflexivity.
    + apply a2b_b2a, sextet0_lt, Ha.
    + apply a2b_b2a, sextet1_lt; assumption.
    + rewrite sextet1_low by assumption. reflexivity.
  - pose proof (to_N_lt_256 a) as Ha. pose proof (to_N_lt_256 b) as Hb.
    assert (H0 : (0 < 256)%N) by reflexivity.
    cbn [b64encode]. rewrite !string_of_list_byte_cons.
    change (string_of_list_byte []) with EmptyString.
    change (ascii_of_byte BASE64_PAD) with "="%char.
    rewrite (b64decode_two _ _ _ (sextet0 (Byte.to_N a))
               (sextet1 (Byte.to_N a) (Byte.to_N b)) (sextet2 (Byte.to_N b) 0)).
    + rewrite octet0_sextets, octet1_sextets by assumption. reflexivity.
    + apply a2b_b2a, sextet0_lt, Ha.
    + apply a2b_b2a, sextet1_lt; assumption.
    + apply a2b_b2a, sextet2_lt; assumption.
    + apply is_pad_b2a, sextet2_lt; assumption.
    + rewrite sextet2_low by assumption. reflexivity.
  - pose proof (to_N_lt_256 a) as Ha. pose proof (to_N_lt_256 b) as Hb.
    pose proof (to_N_lt_256 c) as Hc.
    rewrite b64encode_three, !string_of_list_byte_cons.
    rewrite (b64decode_block _ _ _ _ _ (sextet0 (Byte.to_N a))
               (sextet1 (Byte.to_N a) (Byte.to_N b))
               (sextet2 (Byte.to_N b) (Byte.to_N c)) (sextet3 (Byte.to_N c))).
    + rewrite octet0_sextets, octet1_sextets, octet2_sextets by assumption.
      destruct (string_of_list_byte (b64encode l)) as [|r rest] eqn:E.
      * cbn [b64decode] in IH. injection IH as <-. reflexivity.
      * rewrite IH. reflexivity.
    + apply a2b_b2a, sextet0_lt, Ha.
    + apply a2b_b2a, sextet1_lt; assumption.
    + apply a2b_b2a, sextet2_lt; assumption.
    + apply a2b_b2a, sextet3_lt, Hc.
    + apply is_pad_b2a, sextet2_lt; assumption.
    + apply is_pad_b2a, sextet3_lt, Hc.
Qed.

End RoundTrip.

(** ** Strings: prefixes, occurrences, partition *)

Section Strings.

Lemma length_append (a b : string) :
  String.length (a ++ b) = (String.length a + String.length b)%nat.
Proof. induction a as [|c a IH]; simpl; [reflexivity | rewrite IH; reflexivity]. Qed.

Lemma append_empty (s : string) : s ++ "" = s.
Proof. induction s as [|c s IH]; simpl; [reflexivity | rewrite IH; reflexivity]. Qed.

Lemma substring_all (s : string) : substring 0 (String.length s) s = s.
Proof. induction s as [|c s IH]; simpl; [reflexivity | rewrite IH; reflexivity]. Qed.

Lemma substring_drop (a b : string) (m : nat) :
  substring (String.length a) m (a ++ b) = substring 0 m b.
Proof. induction a as [|c a IH]; simpl; [reflexivity | exact IH]. Qed.

Lemma drop_append (a b : string) :
  substring (String.length a) (String.length (a ++ b) - String.length a) (a ++ b) = b.
Proof.
  rewrite substring_drop, length_append.
  replace (String.length a + String.length b - String.length a)%nat
    with (String.length b) by lia.
  apply substring_all.
Qed.

Lemma prefix_append (a b : string) : prefix a (a ++ b) = true.
Proof.
  induction a as [|c a IH]; simpl; [destruct b; reflexivity|].
  destruct (ascii_dec c c) as [_|Hne]; [exact IH | contradiction].
Qed.

Lemma prefix_head c sub d s : prefix (String c sub) (String d s) = true -> c = d.
Proof. simpl. destruct (ascii_dec c d) as [E|_]; [intros _; exact E | discriminate]. Qed.

Lemma string_forall_impl (f g : ascii -> bool) (s : string) :
  (forall c, f c = true -> g c = true) ->
  string_forall f s = true -> string_forall g s = true.
Proof.
  intros Himp. induction s as [|c s IH]; simpl; [reflexivity|].
  rewrite !andb_true_iff. intros [Hc Hs]. split; [apply Himp, Hc | apply IH, Hs].
Qed.

Lemma string_forall_append (f : ascii -> bool) (a b : string) :
  string_forall f (a ++ b) = string_forall f a && string_forall f b.
Proof.
  induction a as [|c a IH]; simpl; [reflexivity|].
  rewrite IH, andb_assoc. reflexivity.
Qed.

Lemma lacks_head c d s : lacks c (String d s) = true -> d <> c /\ lacks c s = true.
Proof.
  unfold lacks. simpl. rewrite andb_true_iff, negb_true_iff.
  intros [Hd Hs]. split; [apply Ascii.eqb_neq, Hd | exact Hs].
Qed.

Lemma no_prefix_when_lacks c sub s :
  lacks c s = true -> prefix (String c sub) s = false.
Proof.
  intros Hl. destruct s as [|d s]; [reflexivity|].
  apply lacks_head in Hl. destruct Hl as [Hd _].
  simpl. destruct (ascii_dec c d) as [E|_]; [congruence | reflexivity].
Qed.

Lemma count_sub_lacks c sub s :
  lacks c s = true -> count_sub (String c sub) s = 0%nat.
Proof.
  induction s as [|d s IH]; intros Hl; [reflexivity|].
  cbn [count_sub]. rewrite (no_prefix_when_lacks _ _ _ Hl).
  apply lacks_head in Hl. rewrite IH by apply Hl. reflexivity.
Qed.

Lemma no_prefix_append_lacks c sub d a s :
  lacks c (String d a) = true -> prefix (String c sub) (String d a ++ s) = false.
Proof.
  intros Hl. apply lacks_head in Hl. destruct Hl as [Hd _].
  simpl. destruct (ascii_dec c d) as [E|_]; [congruence | reflexivity].
Qed.

Lemma count_sub_append_lacks c sub a s :
  lacks c a = true -> count_sub (String c sub) (a ++ s) = count_sub (String c sub) s.
Proof.
  induction a as [|d a IH]; intros Hl; [reflexivity|].
  change (String d a ++ s) with (String d (a ++ s)).
  cbn [count_sub].
  change (String d (a ++ s)) with (String d a ++ s).
  rewrite (no_prefix_append_lacks _ _ _ _ _ Hl).
  apply lacks_head in Hl. rewrite IH by apply Hl. reflexivity.
Qed.

Lemma partition_append_lacks c sub a s :
  lacks c a = true ->
  partition (String c sub) (a ++ String c sub ++ s) = Some (a, s).
Proof.
  induction a as [|d a IH]; intros Hl.
  - change (EmptyString ++ String c sub ++ s) with (String c sub ++ s).
    destruct (String c sub ++ s) as [|x y] eqn:E; [discriminate|].
    cbn [partition]. rewrite <- E, prefix_append, drop_append. reflexivity.
  - change (String d a ++ String c sub ++ s) with (String d (a ++ String c sub ++ s)).
    cbn [partition].
    change (String d (a ++ String c sub ++ s)) with (String d a ++ (String c sub ++ s)).
    rewrite (no_prefix_append_lacks _ _ _ _ _ Hl).
    apply lacks_head in Hl. rewrite IH by apply Hl. reflexivity.
Qed.

End Strings.

(** ** The payload's alphabet *)

Section Alphabet.

Import Base64.

(** The accepted symbols are [A]-[Z], [a]-[z], [0]-[9], [+], [/] and
    the padding sign. *)
Lemma is_base64_char_codes (c : ascii) :
  is_base64_char c =
  let n := N_of_ascii c in
  ((65 <=? n) && (n <=? 90)) || ((97 <=? n) && (n <=? 122))
  || ((48 <=? n) && (n <=? 57)) || (n =? 43) || (n =? 47) || (n =? 61).
Proof.
  destruct c as [[] [] [] [] [] [] [] []]; vm_compute; reflexivity.
Qed.

Lemma is_base64_char_b2a n : n < 64 -> is_base64_char (ascii_of_byte (b2a n)) = true.
Proof. intros Hn. unfold is_base64_char. rewrite a2b_b2a by exact Hn. reflexivity. Qed.

Lemma payload_alphabet (s : list byte) :
  string_forall is_base64_char (payload_of_bytes s) = true.
Proof.
  unfold payload_of_bytes.
  induction s as [| a | a b | a b c l IH] using list_ind3.
  - reflexivity.
  - pose proof (to_N_lt_256 a).
    cbn [b64encode]. rewrite !string_of_list_byte_cons. cbn [string_forall].
    rewrite !is_base64_char_b2a; [reflexivity| |].
    + apply sextet1_lt; [assumption|reflexivity].
    + apply sextet0_lt; assumption.
  - pose proof (to_N_lt_256 a). pose proof (to_N_lt_256 b).
    cbn [b64encode]. rewrite !string_of_list_byte_cons. cbn [string_forall].
    rewrite !is_base64_char_b2a; [reflexivity| | |].
    + apply sextet2_lt; [assumption|reflexivity].
    + apply sextet1_lt; assumption.
    + apply sextet0_lt; assumption.
  - pose proof (to_N_lt_256 a). pose proof (to_N_lt_256 b).
    pose proof (to_N_lt_256 c).
    rewrite b64encode_three, !string_of_list_byte_cons. cbn [string_forall].
    rewrite IH. rewrite !is_base64_char_b2a; [reflexivity| | | |].
    + apply sextet3_lt; assumption.
    + apply sextet2_lt; assumption.
    + apply sextet1_lt; assumption.
    + apply sextet0_lt; assumption.
Qed.

Lemma alphabet_lacks (c : ascii) (s : string) :
  is_base64_char c = false ->
  string_forall is_base64_char s = true -> lacks c s = true.
Proof.
  intros Hc. apply string_forall_impl. intros d Hd.
  apply negb_true_iff, Ascii.eqb_neq. intros ->. congruence.
Qed.

Lemma payload_lacks (c : ascii) (s : list byte) :
  is_base64_char c = false -> lacks c (payload_of_bytes s) = true.
Proof. intros Hc. apply alphabet_lacks; [exact Hc | apply payload_alphabet]. Qed.

End Alphabet.

(** ** The media-type table *)

Section MediaTypes.

Lemma dict_get_mime_types (file_ext : string) :
  dict_get mime_types file_ext "application/octet-stream" = table_media_type file_ext.
Proof.
  unfold mime_types, table_media_type. cbn [dict_get].
  rewrite !(String.eqb_sym _ file_ext).
  destruct (String.eqb file_ext ".png"); [reflexivity|].
  destruct (String.eqb file_ext ".jpg"); [reflexivity|].
  destruct (String.eqb file_ext ".jpeg"); [reflexivity|].
  destruct (String.eqb file_ext ".gif"); [reflexivity|].
  destruct (String.eqb file_ext ".webp"); [reflexivity|].
  destruct (String.eqb file_ext ".bmp"); reflexivity.
Qed.

Lemma table_media_type_lacks_semicolon (suffix : string) :
  lacks ";" (table_media_type suffix) = true.
Proof.
  unfold table_media_type.
  destruct (String.eqb suffix ".png"); [reflexivity|].
  destruct (String.eqb suffix ".jpg" || String.eqb suffix ".jpeg"); [reflexivity|].
  destruct (String.eqb suffix ".gif"); [reflexivity|].
  destruct (String.eqb suffix ".webp"); [reflexivity|].
  destruct (String.eqb suffix ".bmp"); reflexivity.
Qed.

Lemma mime_type_of_table (image_path : string) :
  mime_type_of image_path =
  table_media_type (lower (snd (OsPath.splitext image_path))).
Proof. unfold mime_type_of. apply dict_get_mime_types. Qed.

Lemma mime_type_of_lacks_semicolon (image_path : string) :
  lacks ";" (mime_type_of image_path) = true.
Proof. rewrite mime_type_of_table. apply table_media_type_lacks_semicolon. Qed.

End MediaTypes.

(** ** Data URIs *)

Section DataUri.

Lemma data_uri_prefix (m p : string) : prefix "data:" (data_uri m p) = true.
Proof. unfold data_uri. apply prefix_append. Qed.

Lemma data_uri_length (m p : string) :
  String.length (data_uri m p) =
  (String.length "data:" + String.length m + String.length ";base64,"
   + String.length p)%nat.
Proof. unfold data_uri. rewrite !length_append. lia. Qed.

Lemma data_uri_count (m p : string) :
  lacks ";" m = true -> lacks ";" p = true ->
  count_sub ";base64," (data_uri m p) = 1%nat.
Proof.
  intros Hm Hp. unfold data_uri.
  rewrite (count_sub_append_lacks ";" "base64," "data:") by reflexivity.
  rewrite (count_sub_append_lacks ";" "base64," m) by exact Hm.
  change (";base64," ++ p) with (String ";" ("base64," ++ p)).
  cbn [count_sub].
  change (String ";" ("base64," ++ p)) with (";base64," ++ p).
  rewrite prefix_append.
  rewrite (count_sub_append_lacks ";" "base64," "base64,") by reflexivity.
  rewrite count_sub_lacks by exact Hp. reflexivity.
Qed.

Lemma parse_data_uri_data_uri (m p : string) :
  lacks ";" m = true -> parse_data_uri (data_uri m p) = Some (mk_resource m p).
Proof.
  intros Hm. unfold parse_data_uri. rewrite data_uri_prefix.
  unfold data_uri.
  pose proof (drop_append "data:" (m ++ ";base64," ++ p)) as Hdrop.
  change (String.length "data:") with 5%nat in Hdrop. rewrite Hdrop.
  rewrite (partition_append_lacks ";" "base64," m p Hm). reflexivity.
Qed.

Lemma data_uri_not_empty (m p : string) : String.eqb (data_uri m p) "" = false.
Proof. reflexivity. Qed.

End DataUri.

(** ** Running the two encoders *)

Section Runs.

Variable w : world.
Variable image_path : string.

Lemma convert_readable (data : list byte) :
  read_bytes w image_path = inl data ->
  convert_image_to_base64 image_path w =
  (Some (data_uri (mime_type_of image_path) (payload_of_bytes data)), w).
Proof.
  intros Hr. unfold convert_image_to_base64, bind, open_read.
  rewrite Hr, decode_b64encode. reflexivity.
Qed.

Lemma convert_unreadable (e : exception) :
  read_bytes w image_path = inr e ->
  convert_image_to_base64 image_path w =
  (None, snd (print_stderr ("Error: " ++ str_exception e) w)).
Proof.
  intros Hr. unfold convert_image_to_base64, bind, open_read.
  rewrite Hr. reflexivity.
Qed.

Variable guess_type : string -> option string.

Lemma image_to_base64_readable (data : list byte) :
  read_bytes w image_path = inl data ->
  image_to_base64 guess_type image_path w =
  (Returned (data_uri (guessed_mime_type guess_type image_path)
                      (payload_of_bytes data)), w).
Proof.
  intros Hr. unfold image_to_base64, bind, open_read.
  rewrite Hr, decode_b64encode. reflexivity.
Qed.

Lemma image_to_base64_unreadable (e : exception) :
  read_bytes w image_path = inr e ->
  image_to_base64 guess_type image_path w =
  (Raised e,
   snd (print ("Error converting image to base64: " ++ str_exception e) w)).
Proof.
  intros Hr. unfold image_to_base64, bind, open_read.
  rewrite Hr. reflexivity.
Qed.

End Runs.

Lemma result_decoded_data_uri (m : string) (data : list byte) :
  lacks ";" m = true ->
  result_decoded (Some (data_uri m (payload_of_bytes data))) = Some data.
Proof.
  intros Hm. unfold result_decoded, result_payload, result_resource.
  rewrite (parse_data_uri_data_uri _ _ Hm).
  cbn [option_map payload]. apply b64decode_b64encode.
Qed.

Lemma valid_resource_data_uri (m : string) (data : list byte) :
  lacks ";" m = true -> valid_resource (data_uri m (payload_of_bytes data)) data.
Proof.
  intros Hm. exists (mk_resource m (payload_of_bytes data)).
  split; [apply parse_data_uri_data_uri, Hm|].
  split; [reflexivity | apply b64decode_b64encode].
Qed.

(** ** Round trip *)

(** C1. Whatever bytes [b] a file holds, the text after the [;base64,]
    separator of the URI that [convert_image_to_base64] returns for it
    decodes to exactly [b]; the same holds for [image_to_base64] as long
    as the media type guessed for the path has no semicolon in it. *)
Theorem round_trip_fidelity (w : world) (path : string) (b : list byte) :
  read_bytes w path = inl b ->
  result_decoded (fst (convert_image_to_base64 path w)) = Some b
  /\ forall guess_type : string -> option string,
       lacks ";" (guessed_mime_type guess_type path) = true ->
       result_decoded (returned (fst (image_to_base64 guess_type path w))) = Some b.
Proof.
  intros Hr. split.
  - rewrite (convert_readable _ _ _ Hr). cbn [fst].
    apply result_decoded_data_uri, mime_type_of_lacks_semicolon.
  - intros guess_type Hg.
    rewrite (image_to_base64_readable _ _ _ _ Hr). cbn [fst returned].
    apply result_decoded_data_uri, Hg.
Qed.

Lemma round_trip_fidelity_witness :
  result_decoded (fst (convert_image_to_base64 "photo.JPG" example_world))
  = Some [xff; xd8]
  /\ result_decoded
       (returned (fst (image_to_base64 (guess_type_of types_map)
                         "photo.JPG" example_world)))
     = Some [xff; xd8].
Proof.
  destruct (round_trip_fidelity example_world "photo.JPG" [xff; xd8] eq_refl)
    as [Hc Hi].
  split; [exact Hc | apply (Hi (guess_type_of types_map)); reflexivity].
Defined.

(** ** The payload *)

(** C6. For every byte sequence the encoding step yields a text (the
    [decode('utf-8')] of [b64encode] never fails), every character of which
    is one of the 64 symbols of the standard alphabet or the padding sign
    [=], and none of which is a line feed or a carriage return; the URI
    [convert_image_to_base64] returns for a file of these bytes carries
    exactly this text as its payload. *)
Theorem payload_text_safe (data : list byte) :
  Base64.decode_utf8 (Base64.b64encode data) = Some (payload_of_bytes data)
  /\ string_forall is_base64_char (payload_of_bytes data) = true
  /\ lacks "010" (payload_of_bytes data) = true
  /\ lacks "013" (payload_of_bytes data) = true
  /\ forall (w : world) (path : string),
       read_bytes w path = inl data ->
       result_payload (fst (convert_image_to_base64 path w))
       = Some (payload_of_bytes data).
Proof.
  split; [apply decode_b64encode|].
  split; [apply payload_alphabet|].
  split; [apply payload_lacks; reflexivity|].
  split; [apply payload_lacks; reflexivity|].
  intros w path Hr. rewrite (convert_readable _ _ _ Hr). cbn [fst].
  unfold result_payload, result_resource.
  rewrite parse_data_uri_data_uri by apply mime_type_of_lacks_semicolon.
  reflexivity.
Qed.

Lemma payload_text_safe_witness :
  result_payload (fst (convert_image_to_base64 "photo.JPG" example_world))
  = Some (payload_of_bytes [xff; xd8]).
Proof.
  apply (payload_text_safe [xff; xd8]). reflexivity.
Defined.

(** C10. A file of [n] bytes gives a payload of [4 * ceil(n / 3)]
    characters, where [ceil(n / 3)] is the least number of three-byte blocks
    that hold [n] bytes; the URI returned for it is as long as ["data:"],
    the media type, [";base64,"] and that payload together. *)
Theorem payload_length (data : list byte) :
  let n := List.length data in
  (n <= 3 * ceil_div3 n < n + 3)%nat
  /\ String.length (payload_of_bytes data) = (4 * ceil_div3 n)%nat
  /\ forall (w : world) (path : string),
       read_bytes w path = inl data ->
       option_map String.length (fst (convert_image_to_base64 path w))
       = Some (String.length "data:" + String.length (mime_type_of path)
               + String.length ";base64," + 4 * ceil_div3 n)%nat.
Proof.
  intros n. split.
  - unfold ceil_div3.
    pose proof (Nat.div_mod_eq (n + 2) 3) as Hd.
    pose proof (Nat.mod_upper_bound (n + 2) 3) as Hm. lia.
  - split; [apply length_payload_of_bytes|].
    intros w path Hr. rewrite (convert_readable _ _ _ Hr). cbn [fst option_map].
    rewrite data_uri_length, length_payload_of_bytes. reflexivity.
Qed.

Lemma payload_length_witness :
  option_map String.length (fst (convert_image_to_base64 "photo.JPG" example_world))
  = Some (String.length "data:" + String.length (mime_type_of "photo.JPG")
          + String.length ";base64," + 4 * ceil_div3 2)%nat.
Proof.
  apply (payload_length [xff; xd8]). reflexivity.
Defined.

(** ** Shape of the URI *)

(** C4. Whenever an encoder succeeds, the URI it returns starts with
    [data:] and has the text [;base64,] at exactly one position; for
    [image_to_base64] this needs the guessed media type to be free of
    semicolons, as media types are. *)
Theorem uri_shape (w : world) (path u : string) :
  (fst (convert_image_to_base64 path w) = Some u ->
   prefix "data:" u = true /\ count_sub ";base64," u = 1%nat)
  /\ forall guess_type : string -> option string,
       fst (image_to_base64 guess_type path w) = Returned u ->
       prefix "data:" u = true
       /\ (lacks ";" (guessed_mime_type guess_type path) = true ->
           count_sub ";base64," u = 1%nat).
Proof.
  split.
  - destruct (read_bytes w path) as [data|e] eqn:Hr.
    + rewrite (convert_readable _ _ _ Hr). cbn [fst]. intros [= <-].
      split; [apply data_uri_prefix|].
      apply data_uri_count;
        [apply mime_type_of_lacks_semicolon | apply payload_lacks; reflexivity].
    + rewrite (convert_unreadable _ _ _ Hr). cbn [fst]. discriminate.
  - intros guess_type.
    destruct (read_bytes w path) as [data|e] eqn:Hr.
    + rewrite (image_to_base64_readable _ _ _ _ Hr). cbn [fst]. intros [= <-].
      split; [apply data_uri_prefix|].
      intros Hg. apply data_uri_count; [exact Hg | apply payload_lacks; reflexivity].
    + rewrite (image_to_base64_unreadable _ _ _ _ Hr). cbn [fst]. discriminate.
Qed.

Lemma uri_shape_witness :
  (prefix "data:" "data:image/jpeg;base64,/9g=" = true
   /\ count_sub ";base64," "data:image/jpeg;base64,/9g=" = 1%nat)
  /\ (prefix "data:" "data:image/jpeg;base64,/9g=" = true
      /\ count_sub ";base64," "data:image/jpeg;base64,/9g=" = 1%nat).
Proof.
  destruct (uri_shape example_world "photo.JPG" "data:image/jpeg;base64,/9g=")
    as [Hc Hi].
  split; [apply Hc; reflexivity|].
  destruct (Hi (guess_type_of types_map) eq_refl) as [Hp Hn].
  split; [exact Hp | apply Hn; reflexivity].
Defined.

(** ** Determinism *)

(** C7. What [convert_image_to_base64] returns depends on the path and on
    the outcome of reading that file only: two runs, in any two worlds in
    which the file reads the same, return the same URI and so the same
    payload, whatever else differs between the worlds. *)
Theorem encode_deterministic (w1 w2 : world) (path : string) :
  read_bytes w1 path = read_bytes w2 path ->
  fst (convert_image_to_base64 path w1) = fst (convert_image_to_base64 path w2)
  /\ result_payload (fst (convert_image_to_base64 path w1))
     = result_payload (fst (convert_image_to_base64 path w2)).
Proof.
  intros Hr.
  assert (H : fst (convert_image_to_base64 path w1)
              = fst (convert_image_to_base64 path w2)).
  { destruct (read_bytes w2 path) as [data|e] eqn:Hr2.
    - rewrite (convert_readable _ _ _ Hr), (convert_readable _ _ _ Hr2).
      reflexivity.
    - rewrite (convert_unreadable _ _ _ Hr), (convert_unreadable _ _ _ Hr2).
      reflexivity. }
  split; [exact H | rewrite H; reflexivity].
Qed.

Lemma encode_deterministic_witness :
  fst (convert_image_to_base64 "photo.JPG" example_world)
  = fst (convert_image_to_base64 "photo.JPG"
           (world_of [("photo.JPG", [xff; xd8])] ["photo.JPG"]))
  /\ result_payload (fst (convert_image_to_base64 "photo.JPG" example_world))
     = result_payload
         (fst (convert_image_to_base64 "photo.JPG"
                 (world_of [("photo.JPG", [xff; xd8])] ["photo.JPG"]))).
Proof.
  apply (encode_deterministic example_world
           (world_of [("photo.JPG", [xff; xd8])] ["photo.JPG"]) "photo.JPG").
  reflexivity.
Defined.

(** ** Lower-casing and the suffix *)

Section LowerCase.

Import OsPath.

Lemma lower_char_idempotent (c : ascii) : lower_char (lower_char c) = lower_char c.
Proof. destruct c as [[] [] [] [] [] [] [] []]; vm_compute; reflexivity. Qed.

Lemma lower_char_slash (c : ascii) : Ascii.eqb (lower_char c) "/" = Ascii.eqb c "/".
Proof. destruct c as [[] [] [] [] [] [] [] []]; vm_compute; reflexivity. Qed.

Lemma lower_char_dot (c : ascii) : Ascii.eqb (lower_char c) "." = Ascii.eqb c ".".
Proof. destruct c as [[] [] [] [] [] [] [] []]; vm_compute; reflexivity. Qed.

Lemma lower_recased (p q : string) : recased p q -> lower p = lower q.
Proof.
  induction 1 as [|c d s t Hcd _ IH]; [reflexivity|].
  cbn [lower]. rewrite IH. f_equal.
  destruct Hcd as [-> | [-> | ->]];
    [reflexivity | symmetry; apply lower_char_idempotent | apply lower_char_idempotent].
Qed.

Lemma length_lower (s : string) : String.length (lower s) = String.length s.
Proof. induction s as [|c s IH]; simpl; [reflexivity | rewrite IH; reflexivity]. Qed.

Lemma substring_lower (s : string) :
  forall n m, substring n m (lower s) = lower (substring n m s).
Proof.
  induction s as [|c s IH]; intros n m.
  - destruct n, m; reflexivity.
  - destruct n as [|n]; [destruct m as [|m]|]; cbn [lower substring].
    + reflexivity.
    + rewrite IH. reflexivity.
    + apply IH.
Qed.

Lemma slice_lower (p : string) (i j : Z) : slice (lower p) i j = lower (slice p i j).
Proof. unfold slice. apply substring_lower. Qed.

Lemma slice_from_lower (p : string) (i : Z) :
  slice_from (lower p) i = lower (slice_from p i).
Proof. unfold slice_from. rewrite length_lower. apply substring_lower. Qed.

Lemma rfind_from_lower (c : ascii) (p : string) :
  (forall d, Ascii.eqb (lower_char d) c = Ascii.eqb d c) ->
  forall i last, rfind_from c (lower p) i last = rfind_from c p i last.
Proof.
  intros Hc. induction p as [|d p IH]; intros i last; [reflexivity|].
  cbn [lower rfind_from]. rewrite Hc. apply IH.
Qed.

Lemma is_dot_lower (s : string) : String.eqb (lower s) "." = String.eqb s ".".
Proof.
  destruct s as [|d [|e r]]; cbn [lower String.eqb]; try reflexivity.
  - rewrite lower_char_dot. reflexivity.
  - rewrite lower_char_dot. reflexivity.
Qed.

Lemma finds_non_dot_lower (p : string) (steps : nat) :
  forall i, finds_non_dot (lower p) i steps = finds_non_dot p i steps.
Proof.
  induction steps as [|steps IH]; intros i; [reflexivity|].
  cbn [finds_non_dot]. rewrite slice_lower, is_dot_lower, IH. reflexivity.
Qed.

Lemma splitext_lower (p : string) :
  snd (splitext (lower p)) = lower (snd (splitext p)).
Proof.
  unfold splitext, rfind.
  rewrite !rfind_from_lower by (apply lower_char_slash || apply lower_char_dot).
  destruct (rfind_from "." p 0 (-1) >? rfind_from "/" p 0 (-1))%Z; [|reflexivity].
  rewrite finds_non_dot_lower.
  destruct (finds_non_dot p _ _); [|reflexivity].
  cbn [snd]. apply slice_from_lower.
Qed.

Lemma lower_idempotent (s : string) : lower (lower s) = lower s.
Proof.
  induction s as [|c s IH]; [reflexivity|].
  cbn [lower]. rewrite lower_char_idempotent, IH. reflexivity.
Qed.

Lemma mime_type_of_lower (p : string) : mime_type_of (lower p) = mime_type_of p.
Proof.
  unfold mime_type_of. rewrite splitext_lower, lower_idempotent. reflexivity.
Qed.

End LowerCase.

Lemma result_media_type_data_uri (m p : string) :
  lacks ";" m = true -> result_media_type (Some (data_uri m p)) = Some m.
Proof.
  intros Hm. unfold result_media_type, result_resource.
  rewrite (parse_data_uri_data_uri _ _ Hm). reflexivity.
Qed.

(** C8. Two paths that differ only in the case of their letters, in the
    suffix or anywhere else, get the same media type, and so do the URIs
    returned for them. *)
Theorem media_type_case_insensitive (p q : string) :
  recased p q ->
  mime_type_of p = mime_type_of q
  /\ forall (w1 w2 : world) (d1 d2 : list byte),
       read_bytes w1 p = inl d1 -> read_bytes w2 q = inl d2 ->
       result_media_type (fst (convert_image_to_base64 p w1))
       = result_media_type (fst (convert_image_to_base64 q w2)).
Proof.
  intros Hpq.
  assert (H : mime_type_of p = mime_type_of q).
  { rewrite <- (mime_type_of_lower p), <- (mime_type_of_lower q).
    rewrite (lower_recased _ _ Hpq). reflexivity. }
  split; [exact H|].
  intros w1 w2 d1 d2 H1 H2.
  rewrite (convert_readable _ _ _ H1), (convert_readable _ _ _ H2). cbn [fst].
  rewrite !result_media_type_data_uri by apply mime_type_of_lacks_semicolon.
  rewrite H. reflexivity.
Qed.

Lemma media_type_case_insensitive_witness :
  recased "IMAGE.PNG" "image.png"
  /\ mime_type_of "IMAGE.PNG" = mime_type_of "image.png"
  /\ result_media_type
       (fst (convert_image_to_base64 "IMAGE.PNG"
               (world_of [("IMAGE.PNG", [x89; x50])] [])))
     = result_media_type
         (fst (convert_image_to_base64 "image.png"
                 (world_of [("image.png", [x00])] []))).
Proof.
  assert (Hr : recased "IMAGE.PNG" "image.png").
  { repeat (apply recased_char; [right; left; reflexivity|]). apply recased_empty. }
  destruct (media_type_case_insensitive "IMAGE.PNG" "image.png" Hr) as [Hm Hu].
  split; [exact Hr|]. split; [exact Hm|].
  apply (Hu _ _ [x89; x50] [x00]); reflexivity.
Defined.

(** ** Running [main] *)

Section MainRuns.

Variable a : args.
Variable w : world.

Lemma main_missing :
  path_exists w (arg_image_path a) = false ->
  main a w =
  (1%Z, snd (print_stderr ("Error: File not found: " ++ arg_image_path a) w)).
Proof.
  intros He. unfold main, bind, exists_. rewrite He. reflexivity.
Qed.

Lemma main_unreadable (e : exception) :
  path_exists w (arg_image_path a) = true ->
  read_bytes w (arg_image_path a) = inr e ->
  main a w = (1%Z, snd (print_stderr ("Error: " ++ str_exception e) w)).
Proof.
  intros He Hr. unfold main, bind, exists_. rewrite He. cbn [negb].
  rewrite (convert_unreadable _ _ _ Hr). reflexivity.
Qed.

Variable data : list byte.
Hypothesis Hexists : path_exists w (arg_image_path a) = true.
Hypothesis Hread : read_bytes w (arg_image_path a) = inl data.

Let u : string := data_uri (mime_type_of (arg_image_path a)) (payload_of_bytes data).

Lemma main_console :
  truthy (arg_output a) = false ->
  main a w =
  (0%Z,
   mk_world (path_exists w) (read_bytes w) (open_w w)
     (((((stdout w ++ [nl ++ "Base64 Image Data:"])
           ++ [preview u])
          ++ [nl ++ "Total length: " ++ str_of_nat (String.length u)])
         ++ [nl ++ "To use with MCP server in multi_image_analysis:"])
        ++ [usage_hint u])
     (stderr w)).
Proof.
  intros Ht. unfold main, bind, exists_. rewrite Hexists. cbn [negb].
  rewrite (convert_readable _ _ _ Hread).
  fold u. rewrite (data_uri_not_empty _ _ : String.eqb u "" = false), Ht.
  reflexivity.
Qed.

Lemma main_saved (out : string) :
  arg_output a = Some out -> out <> "" -> open_w w out = None ->
  main a w =
  (0%Z, snd (print ("Base64 data saved to " ++ out) (snd (open_write out u w)))).
Proof.
  intros Ho Hne Hw. unfold main, bind, exists_. rewrite Hexists. cbn [negb].
  rewrite (convert_readable _ _ _ Hread).
  fold u. rewrite (data_uri_not_empty _ _ : String.eqb u "" = false).
  rewrite Ho. cbn [truthy]. apply String.eqb_neq in Hne. rewrite Hne. cbn [negb].
  unfold save_base64_to_file, bind, open_write. rewrite Hw. reflexivity.
Qed.

Lemma main_save_failed (out : string) (e : os_error) :
  arg_output a = Some out -> out <> "" -> open_w w out = Some e ->
  main a w = (1%Z, snd (print_stderr ("Error saving file: " ++ err_str e) w)).
Proof.
  intros Ho Hne Hw. unfold main, bind, exists_. rewrite Hexists. cbn [negb].
  rewrite (convert_readable _ _ _ Hread).
  fold u. rewrite (data_uri_not_empty _ _ : String.eqb u "" = false).
  rewrite Ho. cbn [truthy]. apply String.eqb_neq in Hne. rewrite Hne. cbn [negb].
  unfold save_base64_to_file, bind, open_write. rewrite Hw. reflexivity.
Qed.

End MainRuns.

Lemma same_files_refl (w : world) : same_files w w.
Proof. repeat split. Qed.

Lemma same_files_print_stderr (line : string) (w : world) :
  same_files w (snd (print_stderr line w)).
Proof. repeat split. Qed.

Lemma truthy_some (o : option string) :
  truthy o = true -> exists out, o = Some out /\ out <> "".
Proof.
  destruct o as [out|]; [|discriminate]. cbn [truthy].
  rewrite negb_true_iff. intros H. exists out.
  split; [reflexivity | apply String.eqb_neq, H].
Qed.

(** ** What [splitext] calls the suffix *)

Section Suffix.

Import OsPath.

Local Open Scope Z_scope.

Lemma substring_join (p : string) :
  forall n, (substring 0 n p ++ substring n (String.length p - n) p)%string = p.
Proof.
  induction p as [|c p IH]; intros n.
  - destruct n; reflexivity.
  - destruct n as [|n].
    + cbn [substring String.length Nat.sub append]. rewrite substring_all. reflexivity.
    + cbn [substring String.length Nat.sub append]. rewrite IH. reflexivity.
Qed.

(** The path is its root followed by its suffix. *)
Lemma splitext_join (p : string) :
  (fst (splitext p) ++ snd (splitext p))%string = p.
Proof.
  unfold splitext.
  destruct (rfind p "." >? rfind p "/"); [|apply append_empty].
  destruct (finds_non_dot p _ _); [|apply append_empty].
  cbn [fst snd]. unfold slice, slice_from.
  rewrite Z.sub_0_r. apply substring_join.
Qed.

Lemma lacks_append (c : ascii) (a b : string) :
  lacks c (a ++ b) = lacks c a && lacks c b.
Proof. apply string_forall_append. Qed.

Lemma rfind_from_spec (c : ascii) (p : string) :
  forall i last,
    (rfind_from c p i last = last /\ lacks c p = true)
    \/ exists a b, p = (a ++ String c b)%string /\ lacks c b = true
                   /\ rfind_from c p i last = i + Z.of_nat (String.length a).
Proof.
  induction p as [|d p IH]; intros i last.
  - left. split; reflexivity.
  - cbn [rfind_from].
    destruct (IH (i + 1) (if Ascii.eqb d c then i else last))
      as [[Hr Hl] | [a [b [Hp [Hl Hr]]]]].
    + destruct (Ascii.eqb_spec d c) as [->|Hdc].
      * right. exists EmptyString, p. repeat split; [exact Hl|].
        rewrite Hr. cbn [String.length]. lia.
      * left. split; [exact Hr|].
        unfold lacks. cbn [string_forall].
        apply Ascii.eqb_neq in Hdc. rewrite Hdc. exact Hl.
    + right. exists (String d a), b. subst p. repeat split; [exact Hl|].
      rewrite Hr. cbn [String.length]. lia.
Qed.

Lemma append_split (a' : string) :
  forall a x y,
    (a ++ x)%string = (a' ++ y)%string ->
    (String.length a' <= String.length a)%nat ->
    exists m, a = (a' ++ m)%string /\ y = (m ++ x)%string.
Proof.
  induction a' as [|c a' IH]; intros a x y Heq Hlen.
  - exists a. split; [reflexivity | symmetry; exact Heq].
  - destruct a as [|d a]; [cbn in Hlen; lia|].
    cbn [append] in Heq. injection Heq as -> Heq.
    destruct (IH a x y Heq) as [m [-> ->]]; [cbn in Hlen; lia|].
    exists m. split; reflexivity.
Qed.

(** The suffix is empty, or a dot followed by characters of the last
    component of the path: no further dot, no separator. *)
Lemma splitext_suffix_shape (p : string) :
  snd (splitext p) = EmptyString
  \/ exists rest, snd (splitext p) = String "." rest
                  /\ lacks "." rest = true /\ lacks "/" rest = true.
Proof.
  unfold splitext, rfind.
  destruct (rfind_from "." p 0 (-1) >? rfind_from "/" p 0 (-1)) eqn:Hgt;
    [|left; reflexivity].
  destruct (finds_non_dot p _ _); [|left; reflexivity].
  right. cbn [snd]. apply Z.gtb_lt in Hgt.
  destruct (rfind_from_spec "." p 0 (-1)) as [[Hd _] | [a [b [Hp [Hlb Hd]]]]].
  - destruct (rfind_from_spec "/" p 0 (-1)) as [[Hs _] | [a' [b' [_ [_ Hs]]]]]; lia.
  - exists b. rewrite Hd. unfold slice_from.
    replace (Z.to_nat (0 + Z.of_nat (String.length a))) with (String.length a) by lia.
    rewrite Hp at 2. rewrite Hp at 1. rewrite drop_append.
    split; [reflexivity|]. split; [exact Hlb|].
    destruct (rfind_from_spec "/" p 0 (-1)) as [[_ Hl] | [a' [b' [Hp' [Hlb' Hs]]]]].
    + rewrite Hp, lacks_append in Hl. apply andb_true_iff in Hl.
      destruct Hl as [_ Hl]. apply lacks_head in Hl. apply Hl.
    + assert (Hlen : (String.length a' < String.length a)%nat) by lia.
      rewrite Hp in Hp'.
      destruct (append_split a' a (String "." b) (String "/" b') Hp') as [m [Ha Hb]];
        [lia|].
      destruct m as [|x m].
      * rewrite append_empty in Ha. subst a. lia.
      * cbn [append] in Hb. injection Hb as _ Hb. subst b'.
        rewrite lacks_append in Hlb'. apply andb_true_iff in Hlb'.
        destruct Hlb' as [_ Hl]. apply lacks_head in Hl. apply Hl.
Qed.

End Suffix.

(** ** Media type *)

Lemma table_media_type_other (suffix : string) :
  ~ In suffix [".png"; ".jpg"; ".jpeg"; ".gif"; ".webp"; ".bmp"] ->
  table_media_type suffix = "application/octet-stream".
Proof.
  intros Hn. unfold table_media_type.
  repeat match goal with
  | |- context [String.eqb suffix ?s] =>
      destruct (String.eqb_spec suffix s) as [->|_];
        [exfalso; apply Hn; cbn [In]; tauto|]
  end.
  reflexivity.
Qed.

(** C2, as the code has it. The media type in the URI that
    [convert_image_to_base64] returns is the entry of the fixed table for
    the lower-cased suffix of the path ([application/octet-stream] for any
    suffix outside the table, the empty one included), whatever the file
    holds.  [image_to_base64] does not use that table: its media type is
    what [mimetypes.guess_type] gives for the path, and
    [application/octet-stream] only when that gives nothing; it does not
    depend on the file's bytes either. *)
Theorem media_type_from_path (w : world) (path : string) (data : list byte) :
  read_bytes w path = inl data ->
  result_media_type (fst (convert_image_to_base64 path w))
  = Some (table_media_type (lower (snd (OsPath.splitext path))))
  /\ (forall (w' : world) (data' : list byte),
        read_bytes w' path = inl data' ->
        result_media_type (fst (convert_image_to_base64 path w'))
        = result_media_type (fst (convert_image_to_base64 path w)))
  /\ forall guess_type : string -> option string,
       fst (image_to_base64 guess_type path w)
       = Returned (data_uri (guessed_mime_type guess_type path) (payload_of_bytes data))
       /\ (guess_type path = None \/ guess_type path = Some "" ->
           guessed_mime_type guess_type path = "application/octet-stream")
       /\ (forall m, guess_type path = Some m -> m <> "" ->
           guessed_mime_type guess_type path = m).
Proof.
  intros Hr.
  assert (H : forall w' data', read_bytes w' path = inl data' ->
              result_media_type (fst (convert_image_to_base64 path w'))
              = Some (table_media_type (lower (snd (OsPath.splitext path))))).
  { intros w' data' Hr'. rewrite (convert_readable _ _ _ Hr'). cbn [fst].
    rewrite result_media_type_data_uri by apply mime_type_of_lacks_semicolon.
    rewrite mime_type_of_table. reflexivity. }
  split; [apply (H w data Hr)|].
  split; [intros w' data' Hr'; rewrite (H w data Hr); apply (H w' data' Hr')|].
  intros guess_type.
  split; [rewrite (image_to_base64_readable _ _ _ _ Hr); reflexivity|].
  unfold guessed_mime_type. split.
  - intros [-> | ->]; reflexivity.
  - intros m -> Hm. apply String.eqb_neq in Hm. rewrite Hm. reflexivity.
Qed.

Lemma media_type_from_path_witness :
  result_media_type (fst (convert_image_to_base64 "photo.JPG" example_world))
  = Some "image/jpeg"
  /\ fst (image_to_base64 (guess_type_of types_map) "notes.txt" example_world)
     = Returned "data:text/plain;base64,aGk=".
Proof.
  split.
  - apply (media_type_from_path example_world "photo.JPG" [xff; xd8] eq_refl).
  - destruct (media_type_from_path example_world "notes.txt"
                (list_byte_of_string "hi") eq_refl) as [_ [_ Hi]].
    apply (Hi (guess_type_of types_map)).
Defined.

(** For [image_to_base64] the fixed table is not what decides: with the
    standard entry for [.txt], a text file gets [text/plain], where the
    table has [application/octet-stream]. *)
Lemma media_type_from_path_counterexample :
  fst (image_to_base64 (guess_type_of types_map) "notes.txt" example_world)
  = Returned "data:text/plain;base64,aGk="
  /\ table_media_type (lower (snd (OsPath.splitext "notes.txt")))
     = "application/octet-stream"
  /\ ~ (forall (guess_type : string -> option string) (w : world)
               (path : string) (data : list byte),
          read_bytes w path = inl data ->
          result_media_type (returned (fst (image_to_base64 guess_type path w)))
          = Some (table_media_type (lower (snd (OsPath.splitext path))))).
Proof.
  split; [reflexivity|]. split; [reflexivity|].
  intros H.
  specialize (H (guess_type_of types_map) example_world "notes.txt"
                (list_byte_of_string "hi") eq_refl).
  vm_compute in H. discriminate H.
Qed.

(** ** Failure *)

Lemma python_open_world_of (files : list (string * list byte))
                            (unwritable : list string) :
  python_open (world_of files unwritable).
Proof. intros p Hp. unfold world_of. cbn [read_bytes]. rewrite Hp. reflexivity. Qed.

(** C3, as the code has it. A path whose [open] or [read] raises gives no
    URI: [convert_image_to_base64] prints the message of the exception on
    the standard error and returns [None], which carries no kind of
    error; [image_to_base64] prints the message and raises that same
    exception again; in both the files stay as they were.  The exception
    is of kind [NotFound] or [IOError] when it is of the [OSError] family,
    and of neither kind when it is the [ValueError] that [open] raises for
    a path with a NUL character.  A path that can be read gives a URI
    that stands for the whole file.  There is nothing in between. *)
Theorem encode_all_or_nothing (w : world) (path : string) :
  match read_bytes w path with
  | inl data =>
      (exists u : string,
         convert_image_to_base64 path w = (Some u, w) /\ valid_resource u data)
      /\ forall guess_type : string -> option string,
           image_to_base64 guess_type path w
           = (Returned (data_uri (guessed_mime_type guess_type path)
                                 (payload_of_bytes data)), w)
           /\ Base64.b64decode (payload_of_bytes data) = Some data
  | inr e =>
      convert_image_to_base64 path w
      = (None, snd (print_stderr ("Error: " ++ str_exception e) w))
      /\ same_files w (snd (convert_image_to_base64 path w))
      /\ (forall guess_type : string -> option string,
            image_to_base64 guess_type path w
            = (Raised e,
               snd (print ("Error converting image to base64: "
                           ++ str_exception e) w)))
      /\ match e with
         | OSError e' =>
             exception_kind e
             = Some (match err_class e' with
                     | FileNotFoundError => NotFound
                     | PermissionError | IsADirectoryError | OtherOSError => IOError
                     end)
         | UnicodeDecodeError | ValueError _ => exception_kind e = None
         end
  end
  /\ (python_open w -> has_nul path = true ->
      fst (convert_image_to_base64 path w) = None
      /\ forall guess_type : string -> option string,
           fst (image_to_base64 guess_type path w)
           = Raised (ValueError "embedded null byte")).
Proof.
  split.
  - destruct (read_bytes w path) as [data|e] eqn:Hr.
    + split.
      * exists (data_uri (mime_type_of path) (payload_of_bytes data)).
        split; [apply convert_readable, Hr|].
        apply valid_resource_data_uri, mime_type_of_lacks_semicolon.
      * intros guess_type.
        split; [apply image_to_base64_readable, Hr | apply b64decode_b64encode].
    + split; [apply convert_unreadable, Hr|].
      split; [rewrite (convert_unreadable _ _ _ Hr); apply same_files_print_stderr|].
      split; [intros guess_type; apply image_to_base64_unreadable, Hr|].
      destruct e as [e'| |msg]; reflexivity.
  - intros Hw Hp. specialize (Hw path Hp). split.
    + rewrite (convert_unreadable _ _ _ Hw). reflexivity.
    + intros guess_type. rewrite (image_to_base64_unreadable _ _ _ _ Hw). reflexivity.
Qed.

Lemma encode_all_or_nothing_witness :
  fst (convert_image_to_base64 nul_path example_world) = None
  /\ fst (image_to_base64 (guess_type_of types_map) nul_path example_world)
     = Raised (ValueError "embedded null byte").
Proof.
  destruct (encode_all_or_nothing example_world nul_path) as [_ Hnul].
  destruct (Hnul (python_open_world_of _ _) eq_refl) as [Hc Hi].
  split; [exact Hc | apply Hi].
Defined.

(** A path with a NUL character resolves to nothing, and the error is a
    [ValueError], of neither kind; and for a missing file
    [convert_image_to_base64] hands back [None], not an error. *)
Lemma encode_all_or_nothing_counterexample :
  read_bytes example_world nul_path = inr (ValueError "embedded null byte")
  /\ fst (image_to_base64 (guess_type_of types_map) nul_path example_world)
     = Raised (ValueError "embedded null byte")
  /\ exception_kind (ValueError "embedded null byte") = None
  /\ fst (convert_image_to_base64 "/no/such/file.png" example_world) = None
  /\ ~ (forall (guess_type : string -> option string) (w : world)
               (path : string) (e : exception),
          python_open w -> read_bytes w path = inr e ->
          exists e', fst (image_to_base64 guess_type path w) = Raised e'
                     /\ (exception_kind e' = Some NotFound
                         \/ exception_kind e' = Some IOError)).
Proof.
  split; [reflexivity|]. split; [reflexivity|]. split; [reflexivity|].
  split; [reflexivity|].
  intros H.
  destruct (H (guess_type_of types_map) example_world nul_path
              (ValueError "embedded null byte")
              (python_open_world_of _ _) eq_refl) as [e' [He' Hk]].
  vm_compute in He'. injection He' as <-.
  destruct Hk as [Hk|Hk]; discriminate Hk.
Qed.

Example encode_missing_file :
  fst (convert_image_to_base64 "/no/such/file.png" example_world) = None
  /\ stderr (snd (convert_image_to_base64 "/no/such/file.png" example_world))
     = ["Error: [Errno 2] No such file or directory: '/no/such/file.png'"].
Proof. split; reflexivity. Qed.

(** ** The command line *)

(** C5, as the code has it. [main] exits with status 1 when the path does
    not exist or cannot be read, and then writes no file and prints
    nothing on the standard output.  When the file exists and reads, a
    given, non-empty output path that can be written receives the URI, and
    the status is 0; when that path cannot be written the status is 1 and
    no file changes; with no output path (or an empty one) the status is 0
    and the standard output receives a heading, the URI cut to its first
    100 characters and three dots when it is longer than that (whole
    otherwise), its total length, and the usage hint. *)
Theorem cli_exit_status (a : args) (w : world) :
  (path_exists w (arg_image_path a) = false
   \/ (exists e, read_bytes w (arg_image_path a) = inr e) ->
   fst (main a w) = 1%Z
   /\ same_files w (snd (main a w))
   /\ stdout (snd (main a w)) = stdout w)
  /\ forall data : list byte,
       path_exists w (arg_image_path a) = true ->
       read_bytes w (arg_image_path a) = inl data ->
       let u := data_uri (mime_type_of (arg_image_path a)) (payload_of_bytes data) in
       (forall out : string,
          arg_output a = Some out -> out <> "" ->
          match open_w w out with
          | None =>
              fst (main a w) = 0%Z
              /\ read_bytes (snd (main a w)) out = inl (list_byte_of_string u)
              /\ path_exists (snd (main a w)) out = true
          | Some e =>
              fst (main a w) = 1%Z
              /\ same_files w (snd (main a w))
              /\ stderr (snd (main a w))
                 = (stderr w ++ [("Error saving file: " ++ err_str e)%string])%list
          end)
       /\ (truthy (arg_output a) = false ->
           fst (main a w) = 0%Z
           /\ same_files w (snd (main a w))
           /\ stdout (snd (main a w))
              = (stdout w
                 ++ [ (nl ++ "Base64 Image Data:")%string;
                      (if (100 <? String.length u)%nat
                       then take 100 u ++ "..." else u)%string;
                      (nl ++ "Total length: "
                       ++ str_of_nat (String.length u))%string;
                      (nl ++ "To use with MCP server in multi_image_analysis:")%string;
                      usage_hint u ])%list).
Proof.
  split.
  - intros [He | [e Hr]].
    + rewrite (main_missing _ _ He). cbn [fst snd].
      split; [reflexivity|]. split; [apply same_files_print_stderr | reflexivity].
    + destruct (path_exists w (arg_image_path a)) eqn:He.
      * rewrite (main_unreadable _ _ _ He Hr). cbn [fst snd].
        split; [reflexivity|].
        split; [apply same_files_print_stderr | reflexivity].
      * rewrite (main_missing _ _ He). cbn [fst snd].
        split; [reflexivity|].
        split; [apply same_files_print_stderr | reflexivity].
  - intros data He Hr u. split.
    + intros out Ho Hne. destruct (open_w w out) as [e|] eqn:Hw.
      * rewrite (main_save_failed _ _ _ He Hr _ _ Ho Hne Hw). cbn [fst snd].
        split; [reflexivity|].
        split; [apply same_files_print_stderr | reflexivity].
      * rewrite (main_saved _ _ _ He Hr _ Ho Hne Hw). cbn [fst snd].
        unfold open_write. rewrite Hw.
        cbn [snd print read_bytes path_exists]. rewrite String.eqb_refl.
        repeat split.
    + intros Ht. rewrite (main_console _ _ _ He Hr Ht). cbn [fst snd stdout].
      split; [reflexivity|]. split; [repeat split|].
      rewrite <- !app_assoc. reflexivity.
Qed.

Lemma cli_exit_status_witness :
  (fst (main (mk_args "/no/such/file.png" (Some "out.txt")) example_world) = 1%Z
   /\ path_exists (snd (main (mk_args "/no/such/file.png" (Some "out.txt"))
                         example_world)) "out.txt" = false)
  /\ (fst (main (mk_args "photo.JPG" (Some "out.txt")) example_world) = 0%Z
      /\ read_bytes (snd (main (mk_args "photo.JPG" (Some "out.txt")) example_world))
           "out.txt"
         = inl (list_byte_of_string "data:image/jpeg;base64,/9g="))
  /\ fst (main (mk_args "photo.JPG" None) example_world) = 0%Z.
Proof.
  split; [|split].
  - destruct (cli_exit_status (mk_args "/no/such/file.png" (Some "out.txt"))
                example_world) as [Hfail _].
    destruct (Hfail (or_introl eq_refl)) as [H1 [[Hsame _] _]].
    split; [exact H1 | rewrite Hsame; reflexivity].
  - destruct (cli_exit_status (mk_args "photo.JPG" (Some "out.txt"))
                example_world) as [_ Hok].
    destruct (Hok [xff; xd8] eq_refl eq_refl) as [Hout _].
    specialize (Hout "out.txt" eq_refl).
    destruct (Hout ltac:(discriminate)) as [H0 [Hfile _]].
    split; [exact H0 | exact Hfile].
  - destruct (cli_exit_status (mk_args "photo.JPG" None) example_world)
      as [_ Hok].
    destruct (Hok [xff; xd8] eq_refl eq_refl) as [_ Hcon].
    apply (Hcon eq_refl).
Defined.

(** The conversion succeeds, an output path is given, and yet the status
    is 1 and the URI is not in the file: the path cannot be written. *)
Lemma cli_exit_status_counterexample :
  fst (convert_image_to_base64 "photo.JPG" example_world)
  = Some "data:image/jpeg;base64,/9g="
  /\ fst (main (mk_args "photo.JPG" (Some "/readonly/out.txt")) example_world) = 1%Z
  /\ read_bytes (snd (main (mk_args "photo.JPG" (Some "/readonly/out.txt"))
                       example_world)) "/readonly/out.txt"
     <> inl (list_byte_of_string "data:image/jpeg;base64,/9g=")
  /\ ~ (forall (a : args) (w : world) (u : string),
          fst (convert_image_to_base64 (arg_image_path a) w) = Some u ->
          fst (main a w) = 0%Z).
Proof.
  split; [reflexivity|]. split; [reflexivity|]. split.
  - vm_compute. discriminate.
  - intros H.
    specialize (H (mk_args "photo.JPG" (Some "/readonly/out.txt")) example_world
                  "data:image/jpeg;base64,/9g=" eq_refl).
    vm_compute in H. discriminate H.
Qed.

(** ** The empty file *)

(** C9, as the code has it. For a file that exists, reads and is empty,
    [convert_image_to_base64] returns ["data:" + media_type + ";base64,"],
    with an empty payload.  That string is not empty, so it passes the test
    of [main], which goes on to the output: the status is 0 when no output
    path is given (or an empty one) and when the output path is written,
    and 1 when the output path cannot be written. *)
Theorem empty_file_accepted (w : world) (path : string) :
  read_bytes w path = inl [] ->
  let u := "data:" ++ mime_type_of path ++ ";base64," in
  convert_image_to_base64 path w = (Some u, w)
  /\ result_payload (Some u) = Some ""
  /\ String.eqb u "" = false
  /\ forall a : args,
       arg_image_path a = path -> path_exists w path = true ->
       (truthy (arg_output a) = false -> fst (main a w) = 0%Z)
       /\ (forall out, arg_output a = Some out -> out <> "" ->
           fst (main a w) = match open_w w out with None => 0%Z | Some _ => 1%Z end).
Proof.
  intros Hr u.
  assert (Hu : data_uri (mime_type_of path) (payload_of_bytes []) = u).
  { unfold data_uri, u. change (payload_of_bytes []) with EmptyString.
    rewrite append_empty. reflexivity. }
  split; [rewrite (convert_readable _ _ _ Hr), Hu; reflexivity|].
  split.
  { rewrite <- Hu. unfold result_payload, result_resource.
    rewrite parse_data_uri_data_uri by apply mime_type_of_lacks_semicolon.
    reflexivity. }
  split; [reflexivity|].
  intros a <- He. split.
  - intros Ht. rewrite (main_console _ _ _ He Hr Ht). reflexivity.
  - intros out Ho Hne. destruct (open_w w out) as [e|] eqn:Hw.
    + rewrite (main_save_failed _ _ _ He Hr _ _ Ho Hne Hw). reflexivity.
    + rewrite (main_saved _ _ _ He Hr _ Ho Hne Hw). reflexivity.
Qed.

Lemma empty_file_accepted_witness :
  convert_image_to_base64 "empty.png" example_world
  = (Some "data:image/png;base64,", example_world)
  /\ fst (main (mk_args "empty.png" None) example_world) = 0%Z
  /\ fst (main (mk_args "empty.png" (Some "out.txt")) example_world) = 0%Z.
Proof.
  destruct (empty_file_accepted example_world "empty.png" eq_refl)
    as [Hc [_ [_ Hmain]]].
  split; [exact Hc|]. split.
  - destruct (Hmain (mk_args "empty.png" None) eq_refl eq_refl) as [Hcon _].
    apply Hcon. reflexivity.
  - destruct (Hmain (mk_args "empty.png" (Some "out.txt")) eq_refl eq_refl)
      as [_ Hout].
    apply (Hout "out.txt" eq_refl). discriminate.
Defined.

(** An empty file is converted, and the status is 1 all the same: the
    output path cannot be written. *)
Lemma empty_file_accepted_counterexample :
  fst (convert_image_to_base64 "empty.png" example_world)
  = Some "data:image/png;base64,"
  /\ fst (main (mk_args "empty.png" (Some "/readonly/out.txt")) example_world) = 1%Z
  /\ ~ (forall (a : args) (w : world),
          path_exists w (arg_image_path a) = true ->
          read_bytes w (arg_image_path a) = inl [] ->
          fst (main a w) = 0%Z).
Proof.
  split; [reflexivity|]. split; [reflexivity|].
  intros H.
  specialize (H (mk_args "empty.png" (Some "/readonly/out.txt")) example_world
                eq_refl eq_refl).
  vm_compute in H. discriminate H.
Qed.

(** ** The scenarios of the specification *)

Example photo_JPG :
  mime_type_of "photo.JPG" = "image/jpeg"
  /\ fst (convert_image_to_base64 "photo.JPG" example_world)
     = Some "data:image/jpeg;base64,/9g=".
Proof. split; reflexivity. Qed.

Example archive_bin : mime_type_of "archive.bin" = "application/octet-stream".
Proof. reflexivity. Qed.

Example no_suffix : mime_type_of "Makefile" = "application/octet-stream".
Proof. reflexivity. Qed.

Example hidden_file : mime_type_of "dir/.png" = "application/octet-stream".
Proof. reflexivity. Qed.

Example suffix_of_directory : mime_type_of "shots.png/readme" = "application/octet-stream".
Proof. reflexivity. Qed.

Example missing_file_cli :
  fst (main (mk_args "/no/such/file.png" None) example_world) = 1%Z
  /\ stderr (snd (main (mk_args "/no/such/file.png" None) example_world))
     = ["Error: File not found: /no/such/file.png"]
  /\ stdout (snd (main (mk_args "/no/such/file.png" None) example_world)) = [].
Proof. repeat split. Qed.

Example console_output :
  stdout (snd (main (mk_args "photo.JPG" None) example_world))
  = [ (nl ++ "Base64 Image Data:")%string;
      "data:image/jpeg;base64,/9g=";
      (nl ++ "Total length: 27")%string;
      (nl ++ "To use with MCP server in multi_image_analysis:")%string;
      usage_hint "data:image/jpeg;base64,/9g=" ].
Proof. reflexivity. Qed.

(** * Further properties of the two scripts *)

(** ** The URI determines the file *)

(** X1. Two successful conversions that return the same URI read the same
    bytes and chose the same media type: no two files with different
    content share a URI. *)
Theorem uri_determines_file (w1 w2 : world) (p1 p2 u : string) :
  fst (convert_image_to_base64 p1 w1) = Some u ->
  fst (convert_image_to_base64 p2 w2) = Some u ->
  read_bytes w1 p1 = read_bytes w2 p2 /\ mime_type_of p1 = mime_type_of p2.
Proof.
  destruct (read_bytes w1 p1) as [d1|e1] eqn:H1;
    [|rewrite (convert_unreadable _ _ _ H1); discriminate].
  destruct (read_bytes w2 p2) as [d2|e2] eqn:H2;
    [|rewrite (convert_unreadable _ _ _ H2); discriminate].
  rewrite (convert_readable _ _ _ H1), (convert_readable _ _ _ H2). cbn [fst].
  intros [= Hu1] [= Hu2].
  pose proof (parse_data_uri_data_uri (mime_type_of p1) (payload_of_bytes d1)
                (mime_type_of_lacks_semicolon p1)) as P1.
  pose proof (parse_data_uri_data_uri (mime_type_of p2) (payload_of_bytes d2)
                (mime_type_of_lacks_semicolon p2)) as P2.
  rewrite Hu1 in P1. rewrite Hu2, P1 in P2. injection P2 as Hm Hp.
  split; [|exact Hm].
  pose proof (b64decode_b64encode d1) as D1. rewrite Hp in D1.
  rewrite b64decode_b64encode in D1. injection D1 as ->. reflexivity.
Qed.

Lemma uri_determines_file_witness :
  read_bytes example_world "photo.JPG"
  = read_bytes (world_of [("scan.jpeg", [xff; xd8])] []) "scan.jpeg"
  /\ mime_type_of "photo.JPG" = mime_type_of "scan.jpeg".
Proof.
  apply (uri_determines_file example_world
           (world_of [("scan.jpeg", [xff; xd8])] [])
           "photo.JPG" "scan.jpeg" "data:image/jpeg;base64,/9g=");
    reflexivity.
Defined.

(** ** Both encoders on one file *)

(** X2. On any path the two encoders succeed or fail together; when
    they succeed their URIs carry the same payload and differ in the media
    type at most. *)
Theorem encoders_agree (guess_type : string -> option string)
                       (w : world) (path : string) :
  match fst (convert_image_to_base64 path w),
        fst (image_to_base64 guess_type path w) with
  | Some u, Returned u' =>
      exists data,
        read_bytes w path = inl data
        /\ u = data_uri (mime_type_of path) (payload_of_bytes data)
        /\ u' = data_uri (guessed_mime_type guess_type path) (payload_of_bytes data)
  | None, Raised e => read_bytes w path = inr e
  | _, _ => False
  end.
Proof.
  destruct (read_bytes w path) as [data|e] eqn:Hr.
  - rewrite (convert_readable _ _ _ Hr), (image_to_base64_readable _ _ _ _ Hr).
    cbn [fst]. exists data. repeat split.
  - rewrite (convert_unreadable _ _ _ Hr), (image_to_base64_unreadable _ _ _ _ Hr).
    cbn [fst]. reflexivity.
Qed.

(** ** What [main] does to the world *)

Lemma stderr_print (line : string) (w : world) :
  stderr (snd (print line w)) = stderr w.
Proof. reflexivity. Qed.

Lemma stderr_print_stderr (line : string) (w : world) :
  stderr (snd (print_stderr line w)) = (stderr w ++ [line])%list.
Proof. reflexivity. Qed.

(** X3. Past [parse_args], and when [Path.exists()] answers, the status
    that [main] returns is 0 or 1 and tells what it printed on the standard
    error: nothing with status 0, the message of exactly one [print] call
    with status 1. *)
Theorem exit_status_and_stderr (a : args) (w : world) :
  (fst (main a w) = 0%Z /\ stderr (snd (main a w)) = stderr w)
  \/ (fst (main a w) = 1%Z
      /\ exists line, stderr (snd (main a w)) = (stderr w ++ [line])%list).
Proof.
  destruct (path_exists w (arg_image_path a)) eqn:He.
  - destruct (read_bytes w (arg_image_path a)) as [data|e] eqn:Hr.
    + destruct (truthy (arg_output a)) eqn:Ht.
      * destruct (truthy_some _ Ht) as [out [Ho Hne]].
        destruct (open_w w out) as [e|] eqn:Hw.
        -- right. rewrite (main_save_failed _ _ _ He Hr _ _ Ho Hne Hw).
           split; [reflexivity | eexists; reflexivity].
        -- left. rewrite (main_saved _ _ _ He Hr _ Ho Hne Hw).
           split; [reflexivity|]. cbn [snd]. rewrite stderr_print.
           unfold open_write. rewrite Hw. reflexivity.
      * left. rewrite (main_console _ _ _ He Hr Ht). split; reflexivity.
    + right. rewrite (main_unreadable _ _ _ He Hr).
      split; [reflexivity | eexists; reflexivity].
  - right. rewrite (main_missing _ _ He).
    split; [reflexivity | eexists; reflexivity].
Qed.

(** X5. After [main] has written its output file, the text of that file
    is a URI whose payload decodes to the bytes the picture had before the
    run; this holds too when the output path is the path of the picture,
    which the run then overwrites. *)
Theorem output_file_round_trip (a : args) (w : world) (data : list byte)
                               (out : string) :
  path_exists w (arg_image_path a) = true ->
  read_bytes w (arg_image_path a) = inl data ->
  arg_output a = Some out -> out <> "" -> open_w w out = None ->
  fst (main a w) = 0%Z
  /\ file_text (snd (main a w)) out
     = Some (data_uri (mime_type_of (arg_image_path a)) (payload_of_bytes data))
  /\ result_decoded (file_text (snd (main a w)) out) = Some data.
Proof.
  intros He Hr Ho Hne Hw.
  rewrite (main_saved _ _ _ He Hr _ Ho Hne Hw). cbn [fst snd].
  assert (Hf : file_text
                 (snd (print ("Base64 data saved to " ++ out)
                         (snd (open_write out
                                 (data_uri (mime_type_of (arg_image_path a))
                                           (payload_of_bytes data)) w)))) out
               = Some (data_uri (mime_type_of (arg_image_path a))
                                (payload_of_bytes data))).
  { unfold file_text, open_write. rewrite Hw.
    cbn [snd print read_bytes]. rewrite String.eqb_refl.
    rewrite string_of_list_byte_of_string. reflexivity. }
  split; [reflexivity|]. split; [exact Hf|].
  rewrite Hf. apply result_decoded_data_uri, mime_type_of_lacks_semicolon.
Qed.

Lemma output_file_round_trip_witness :
  fst (main (mk_args "photo.JPG" (Some "photo.JPG")) example_world) = 0%Z
  /\ file_text (snd (main (mk_args "photo.JPG" (Some "photo.JPG")) example_world))
       "photo.JPG"
     = Some (data_uri (mime_type_of "photo.JPG") (payload_of_bytes [xff; xd8]))
  /\ result_decoded
       (file_text (snd (main (mk_args "photo.JPG" (Some "photo.JPG"))
                          example_world)) "photo.JPG")
     = Some [xff; xd8].
Proof.
  apply (output_file_round_trip (mk_args "photo.JPG" (Some "photo.JPG"))
           example_world [xff; xd8] "photo.JPG");
    try reflexivity.
  discriminate.
Defined.

(** ** What [main] prints *)

Lemma length_take (n : nat) (s : string) :
  String.length (take n s) = Nat.min n (String.length s).
Proof.
  unfold take. revert n.
  induction s as [|c s IH]; intros [|n]; cbn [substring String.length Nat.min];
    try reflexivity.
  rewrite IH. reflexivity.
Qed.

Lemma take_all (n : nat) (s : string) :
  (String.length s <= n)%nat -> take n s = s.
Proof.
  unfold take. revert n.
  induction s as [|c s IH]; intros [|n] Hn; cbn [substring]; try reflexivity.
  - cbn in Hn. lia.
  - rewrite IH; [reflexivity | cbn in Hn; lia].
Qed.

Lemma take_take (n : nat) (s t : string) :
  (n <= String.length s)%nat -> take n (s ++ t) = take n s.
Proof.
  unfold take. revert n.
  induction s as [|c s IH]; intros [|n] Hn; cbn [substring append];
    try reflexivity.
  - destruct t; reflexivity.
  - cbn in Hn. lia.
  - rewrite IH; [reflexivity | cbn in Hn; lia].
Qed.

(** X6. The preview line of the console output is never longer than 103
    characters, whatever the size of the picture; it starts with the first
    100 characters of the URI, and is the whole URI when that has at most
    100 characters. *)
Theorem preview_bounded (base64_data : string) :
  (String.length (preview base64_data) <= 103)%nat
  /\ take 100 (preview base64_data) = take 100 base64_data
  /\ ((String.length base64_data <= 100)%nat -> preview base64_data = base64_data)
  /\ ((100 < String.length base64_data)%nat ->
      String.length (preview base64_data) = 103%nat).
Proof.
  unfold preview.
  destruct (Nat.ltb_spec 100 (String.length base64_data)) as [Hlong|Hshort].
  - assert (Hl : String.length (take 100 base64_data) = 100%nat).
    { rewrite length_take. lia. }
    split; [rewrite length_append, Hl; cbn; lia|].
    split; [rewrite take_take by lia; apply take_all; lia|].
    split; [intros; lia|].
    intros _. rewrite length_append, Hl. reflexivity.
  - split; [lia|]. split; [reflexivity|]. split; [reflexivity | intros; lia].
Qed.

Lemma take_20_data_uri (image_path base64_data : string) :
  take 20 (data_uri (mime_type_of image_path) base64_data)
  = take 20 ("data:" ++ mime_type_of image_path ++ ";base64,").
Proof.
  rewrite mime_type_of_table. unfold table_media_type.
  destruct (String.eqb _ ".png"); [reflexivity|].
  destruct (String.eqb _ ".jpg" || String.eqb _ ".jpeg"); [reflexivity|].
  destruct (String.eqb _ ".gif"); [reflexivity|].
  destruct (String.eqb _ ".webp"); [reflexivity|].
  destruct (String.eqb _ ".bmp"); reflexivity.
Qed.

(** X7. The usage hint that closes the console output shows the first 20
    characters of the URI, which never reach the payload: two runs on the
    same path print the same hint, whatever the two pictures hold. *)
Theorem usage_hint_shows_no_payload (a : args) (w1 w2 : world)
                                    (d1 d2 : list byte) :
  path_exists w1 (arg_image_path a) = true ->
  path_exists w2 (arg_image_path a) = true ->
  read_bytes w1 (arg_image_path a) = inl d1 ->
  read_bytes w2 (arg_image_path a) = inl d2 ->
  truthy (arg_output a) = false ->
  last (stdout (snd (main a w1))) "" = last (stdout (snd (main a w2))) ""
  /\ last (stdout (snd (main a w1))) ""
     = usage_hint ("data:" ++ mime_type_of (arg_image_path a) ++ ";base64,").
Proof.
  intros He1 He2 Hr1 Hr2 Ht.
  assert (H : forall w d,
             path_exists w (arg_image_path a) = true ->
             read_bytes w (arg_image_path a) = inl d ->
             last (stdout (snd (main a w))) ""
             = usage_hint ("data:" ++ mime_type_of (arg_image_path a) ++ ";base64,")).
  { intros w d He Hr. rewrite (main_console _ _ _ He Hr Ht). cbn [snd stdout].
    rewrite last_last. unfold usage_hint.
    rewrite take_20_data_uri. reflexivity. }
  split; [rewrite (H w1 d1 He1 Hr1), (H w2 d2 He2 Hr2); reflexivity|].
  apply (H w1 d1 He1 Hr1).
Qed.

Lemma usage_hint_shows_no_payload_witness :
  last (stdout (snd (main (mk_args "photo.JPG" None) example_world))) ""
  = last (stdout (snd (main (mk_args "photo.JPG" None)
                         (world_of [("photo.JPG", [x00; x01; x02; x03])] []))))
         ""
  /\ last (stdout (snd (main (mk_args "photo.JPG" None) example_world))) ""
     = usage_hint ("data:" ++ mime_type_of "photo.JPG" ++ ";base64,").
Proof.
  apply (usage_hint_shows_no_payload (mk_args "photo.JPG" None) example_world
           (world_of [("photo.JPG", [x00; x01; x02; x03])] [])
           [xff; xd8] [x00; x01; x02; x03]);
    reflexivity.
Defined.

(** ** The characters of a URI *)

Lemma base64_char_plain (c : ascii) :
  is_base64_char c = true -> is_plain_char c = true.
Proof.
  destruct c as [[] [] [] [] [] [] [] []]; vm_compute; intros H;
    first [reflexivity | discriminate H].
Qed.

Lemma table_media_type_plain (suffix : string) :
  string_forall is_plain_char (table_media_type suffix) = true.
Proof.
  unfold table_media_type.
  destruct (String.eqb suffix ".png"); [reflexivity|].
  destruct (String.eqb suffix ".jpg" || String.eqb suffix ".jpeg"); [reflexivity|].
  destruct (String.eqb suffix ".gif"); [reflexivity|].
  destruct (String.eqb suffix ".webp"); [reflexivity|].
  destruct (String.eqb suffix ".bmp"); reflexivity.
Qed.

Lemma data_uri_plain (image_path : string) (data : list byte) :
  string_forall is_plain_char
    (data_uri (mime_type_of image_path) (payload_of_bytes data)) = true.
Proof.
  unfold data_uri. rewrite !string_forall_append.
  rewrite mime_type_of_table, table_media_type_plain.
  rewrite (string_forall_impl _ _ _ base64_char_plain (payload_alphabet data)).
  reflexivity.
Qed.

(** X8. A URI returned by [convert_image_to_base64] is made of printable
    ASCII characters only, with no space, no double quote and no backslash
    among them: it can stand inside a JSON string as it is. *)
Theorem uri_needs_no_escaping (w : world) (path u : string) :
  fst (convert_image_to_base64 path w) = Some u ->
  string_forall is_plain_char u = true.
Proof.
  destruct (read_bytes w path) as [data|e] eqn:Hr.
  - rewrite (convert_readable _ _ _ Hr). cbn [fst]. intros [= <-].
    apply data_uri_plain.
  - rewrite (convert_unreadable _ _ _ Hr). discriminate.
Qed.

Lemma uri_needs_no_escaping_witness :
  string_forall is_plain_char "data:image/jpeg;base64,/9g=" = true.
Proof.
  apply (uri_needs_no_escaping example_world "photo.JPG"). reflexivity.
Defined.

(** ** Padding *)

Section Padding.

Import Base64.

Lemma b2a_not_pad n : n < 64 -> Ascii.eqb (ascii_of_byte (b2a n)) "=" = false.
Proof. exact (is_pad_b2a n). Qed.

Lemma pad_count_three (n : nat) : pad_count (S (S (S n))) = pad_count n.
Proof.
  unfold pad_count.
  replace (S (S (S n))) with (n + 1 * 3)%nat by lia.
  rewrite Nat.Div0.mod_add. reflexivity.
Qed.

Lemma pad_count_le_payload (data : list byte) :
  (pad_count (List.length data) <= String.length (payload_of_bytes data))%nat.
Proof.
  rewrite length_payload_of_bytes. unfold pad_count, ceil_div3.
  destruct data as [|a data]; [cbn; lia|].
  pose proof (Nat.mod_upper_bound (3 - List.length (a :: data) mod 3) 3).
  assert (1 <= (List.length (a :: data) + 2) / 3)%nat.
  { apply Nat.div_le_lower_bound; cbn [List.length]; lia. }
  lia.
Qed.

(** X9. The payload ends with as many padding signs as the length of the
    file requires (none, two or one as the length is 0, 1 or 2 modulo 3),
    and there is no padding sign before them. *)
Theorem payload_padding (data : list byte) :
  count_char "=" (payload_of_bytes data) = pad_count (List.length data)
  /\ lacks "="
       (take (String.length (payload_of_bytes data) - pad_count (List.length data))
             (payload_of_bytes data)) = true.
Proof.
  induction data as [| a | a b | a b c l [IHc IHl]] using list_ind3.
  - split; reflexivity.
  - pose proof (to_N_lt_256 a) as Ha.
    unfold payload_of_bytes. cbn [b64encode].
    rewrite !string_of_list_byte_cons.
    change (string_of_list_byte []) with EmptyString.
    change (ascii_of_byte BASE64_PAD) with "="%char.
    change (pad_count (List.length [a])) with 2%nat.
    cbn [count_char String.length Nat.sub take substring].
    unfold lacks. cbn [string_forall].
    rewrite !b2a_not_pad;
      [split; reflexivity | apply sextet1_lt; [exact Ha | reflexivity]
       | apply sextet0_lt, Ha].
  - pose proof (to_N_lt_256 a) as Ha. pose proof (to_N_lt_256 b) as Hb.
    unfold payload_of_bytes. cbn [b64encode].
    rewrite !string_of_list_byte_cons.
    change (string_of_list_byte []) with EmptyString.
    change (ascii_of_byte BASE64_PAD) with "="%char.
    change (pad_count (List.length [a; b])) with 1%nat.
    cbn [count_char String.length Nat.sub take substring].
    unfold lacks. cbn [string_forall].
    rewrite !b2a_not_pad;
      [split; reflexivity | apply sextet2_lt; [exact Hb | reflexivity]
       | apply sextet1_lt; assumption | apply sextet0_lt, Ha].
  - pose proof (to_N_lt_256 a) as Ha. pose proof (to_N_lt_256 b) as Hb.
    pose proof (to_N_lt_256 c) as Hc.
    pose proof (pad_count_le_payload l) as Hle.
    cbn [List.length]. rewrite pad_count_three.
    unfold payload_of_bytes in *.
    rewrite b64encode_three, !string_of_list_byte_cons.
    cbn [count_char String.length].
    replace (S (S (S (S (String.length (string_of_list_byte (b64encode l))))))
             - pad_count (List.length l))%nat
      with (S (S (S (S (String.length (string_of_list_byte (b64encode l))
                        - pad_count (List.length l))))))%nat by lia.
    unfold take in *. cbn [substring]. unfold lacks in *. cbn [string_forall].
    rewrite !b2a_not_pad;
      [ | apply sextet3_lt, Hc | apply sextet2_lt; assumption
        | apply sextet1_lt; assumption | apply sextet0_lt, Ha].
    cbn [negb andb Nat.add]. split; [exact IHc | exact IHl].
Qed.

End Padding.

(** ** Directories do not count *)

Section FinalComponent.

Import OsPath.

Local Open Scope Z_scope.

Lemma append_assoc (a b c : string) : ((a ++ b) ++ c)%string = (a ++ b ++ c)%string.
Proof. induction a as [|d a IH]; cbn [append]; [reflexivity | rewrite IH; reflexivity]. Qed.

Lemma rfind_from_lacks (c : ascii) (p : string) :
  lacks c p = true -> forall i last, rfind_from c p i last = last.
Proof.
  induction p as [|d p IH]; intros Hl i last; [reflexivity|].
  apply lacks_head in Hl. destruct Hl as [Hd Hl].
  cbn [rfind_from]. apply Ascii.eqb_neq in Hd. rewrite Hd. apply IH, Hl.
Qed.

Lemma rfind_from_found (c : ascii) (a b : string) :
  lacks c b = true ->
  forall i last,
    rfind_from c (a ++ String c b) i last = i + Z.of_nat (String.length a).
Proof.
  intros Hl. induction a as [|d a IH]; intros i last.
  - cbn [append rfind_from String.length]. rewrite Ascii.eqb_refl.
    rewrite (rfind_from_lacks _ _ Hl). lia.
  - cbn [append rfind_from String.length]. rewrite IH. lia.
Qed.

Lemma rfind_from_append_lacks (c : ascii) (a b : string) :
  lacks c b = true ->
  forall i last, rfind_from c (a ++ b) i last = rfind_from c a i last.
Proof.
  intros Hl. induction a as [|d a IH]; intros i last.
  - cbn [append rfind_from]. apply rfind_from_lacks, Hl.
  - cbn [append rfind_from]. apply IH.
Qed.

Lemma rfind_from_bound (c : ascii) (a : string) :
  forall i last, last < i -> rfind_from c a i last < i + Z.of_nat (String.length a).
Proof.
  induction a as [|d a IH]; intros i last Hi.
  - cbn [rfind_from String.length]. lia.
  - cbn [rfind_from String.length].
    specialize (IH (i + 1) (if Ascii.eqb d c then i else last)).
    destruct (Ascii.eqb d c); lia.
Qed.

Lemma substring_shift (x s : string) (n m : nat) :
  substring (String.length x + n) m (x ++ s) = substring n m s.
Proof. induction x as [|d x IH]; cbn [String.length Nat.add append substring]; auto. Qed.

Lemma slice_shift (x s : string) (i j : Z) :
  0 <= i ->
  slice (x ++ s) (Z.of_nat (String.length x) + i) (Z.of_nat (String.length x) + j)
  = slice s i j.
Proof.
  intros Hi. unfold slice.
  replace (Z.to_nat (Z.of_nat (String.length x) + i))
    with (String.length x + Z.to_nat i)%nat by lia.
  replace (Z.of_nat (String.length x) + j - (Z.of_nat (String.length x) + i))
    with (j - i) by lia.
  apply substring_shift.
Qed.

Lemma slice_from_shift (x s : string) (i : Z) :
  0 <= i ->
  slice_from (x ++ s) (Z.of_nat (String.length x) + i) = slice_from s i.
Proof.
  intros Hi. unfold slice_from. rewrite length_append.
  replace (Z.to_nat (Z.of_nat (String.length x) + i))
    with (String.length x + Z.to_nat i)%nat by lia.
  replace (String.length x + String.length s - (String.length x + Z.to_nat i))%nat
    with (String.length s - Z.to_nat i)%nat by lia.
  apply substring_shift.
Qed.

Lemma finds_non_dot_shift (x s : string) (steps : nat) :
  forall i, 0 <= i ->
    finds_non_dot (x ++ s) (Z.of_nat (String.length x) + i) steps
    = finds_non_dot s i steps.
Proof.
  induction steps as [|steps IH]; intros i Hi; [reflexivity|].
  cbn [finds_non_dot].
  replace (Z.of_nat (String.length x) + i + 1)
    with (Z.of_nat (String.length x) + (i + 1)) by lia.
  rewrite slice_shift by exact Hi. rewrite IH by lia. reflexivity.
Qed.

Lemma splitext_final_component (dir name : string) :
  lacks "/" name = true ->
  snd (splitext (dir ++ "/" ++ name)) = snd (splitext name).
Proof.
  intros Hsep.
  change (dir ++ "/" ++ name)%string with (dir ++ String "/" name)%string.
  assert (Hp : (dir ++ String "/" name)%string = ((dir ++ "/") ++ name)%string).
  { rewrite append_assoc. reflexivity. }
  assert (Hx : Z.of_nat (String.length (dir ++ "/")) = Z.of_nat (String.length dir) + 1).
  { rewrite length_append. cbn [String.length]. lia. }
  unfold splitext, rfind.
  rewrite (rfind_from_found "/" dir name Hsep 0 (-1)).
  rewrite (rfind_from_lacks "/" name Hsep 0 (-1)).
  destruct (rfind_from_spec "." name 0 (-1)) as [[Hd Hl] | [a [b [Hn [Hlb Hd]]]]].
  - rewrite Hd. rewrite Hp, (rfind_from_append_lacks "." _ name Hl).
    pose proof (rfind_from_bound "." (dir ++ "/") 0 (-1) ltac:(lia)) as Hb.
    destruct (Z.gtb_spec (rfind_from "." (dir ++ "/") 0 (-1))
                         (0 + Z.of_nat (String.length dir))) as [Hgt|_]; [lia|].
    reflexivity.
  - rewrite Hd.
    assert (Hdot : rfind_from "." (dir ++ String "/" name) 0 (-1)
                   = Z.of_nat (String.length (dir ++ "/"))
                     + Z.of_nat (String.length a)).
    { rewrite Hp, Hn, <- append_assoc.
      rewrite (rfind_from_found "." _ b Hlb). rewrite length_append. lia. }
    rewrite Hdot.
    destruct (Z.gtb_spec (Z.of_nat (String.length (dir ++ "/"))
                          + Z.of_nat (String.length a))
                         (0 + Z.of_nat (String.length dir))) as [_|Hle]; [|lia].
    destruct (Z.gtb_spec (0 + Z.of_nat (String.length a)) (-1)) as [_|Hle]; [|lia].
    replace (0 + Z.of_nat (String.length dir) + 1)
      with (Z.of_nat (String.length (dir ++ "/")) + 0) by lia.
    replace (Z.of_nat (String.length (dir ++ "/")) + Z.of_nat (String.length a)
             - (Z.of_nat (String.length (dir ++ "/")) + 0))
      with (0 + Z.of_nat (String.length a) - (-1 + 1)) by lia.
    rewrite Hp. rewrite finds_non_dot_shift by lia.
    replace (-1 + 1) with 0 by lia.
    destruct (finds_non_dot name 0 _); [|reflexivity].
    cbn [snd].
    replace (0 + Z.of_nat (String.length a)) with (Z.of_nat (String.length a)) by lia.
    apply slice_from_shift. lia.
Qed.

End FinalComponent.

(** X10. The media type is decided by the last component of the path
    alone: the directories in front of it, with whatever dots and letters
    they have, never change it. *)
Theorem media_type_of_final_component (dir name : string) :
  lacks "/" name = true ->
  mime_type_of (dir ++ "/" ++ name) = mime_type_of name
  /\ forall (w1 w2 : world) (d1 d2 : list byte),
       read_bytes w1 (dir ++ "/" ++ name) = inl d1 ->
       read_bytes w2 name = inl d2 ->
       result_media_type (fst (convert_image_to_base64 (dir ++ "/" ++ name) w1))
       = result_media_type (fst (convert_image_to_base64 name w2)).
Proof.
  intros Hsep.
  assert (H : mime_type_of (dir ++ "/" ++ name) = mime_type_of name).
  { unfold mime_type_of. rewrite (splitext_final_component _ _ Hsep). reflexivity. }
  split; [exact H|].
  intros w1 w2 d1 d2 H1 H2.
  rewrite (convert_readable _ _ _ H1), (convert_readable _ _ _ H2). cbn [fst].
  rewrite !result_media_type_data_uri by apply mime_type_of_lacks_semicolon.
  rewrite H. reflexivity.
Qed.

Lemma media_type_of_final_component_witness :
  mime_type_of ("/home/user/shots.gif" ++ "/" ++ "IMAGE.PNG") = mime_type_of "IMAGE.PNG"
  /\ mime_type_of ("backup.png" ++ "/" ++ "notes") = mime_type_of "notes".
Proof.
  split.
  - apply (media_type_of_final_component "/home/user/shots.gif" "IMAGE.PNG").
    reflexivity.
  - apply (media_type_of_final_component "backup.png" "notes"). reflexivity.
Defined.

(** ** [openrouter-image-python.py]: [main] *)

(** X11. When the picture cannot be read, [main] of the image script calls
    neither sender: whatever they would do, the run ends with two lines on
    the standard output, the error as [image_to_base64] reports it and as
    [main] reports it again, and the world is otherwise as it was.  When
    the picture can be read, both senders run, in the order of the script
    and with the same URI, after one line of success. *)
Theorem image_main_runs (guess_type : string -> option string)
                        (send_image_direct_api send_image_openai_sdk
                           : string -> string -> M unit)
                        (w : world) :
  match read_bytes w OpenrouterImage.IMAGE_PATH with
  | inl data =>
      OpenrouterImage.main guess_type send_image_direct_api send_image_openai_sdk w
      = (send_image_direct_api
           (data_uri (guessed_mime_type guess_type OpenrouterImage.IMAGE_PATH)
                     (payload_of_bytes data))
           OpenrouterImage.default_question ;;;
         send_image_openai_sdk
           (data_uri (guessed_mime_type guess_type OpenrouterImage.IMAGE_PATH)
                     (payload_of_bytes data))
           OpenrouterImage.default_question)
          (snd (print "Image converted to base64 successfully" w))
  | inr e =>
      OpenrouterImage.main guess_type send_image_direct_api send_image_openai_sdk w
      = (tt,
         mk_world (path_exists w) (read_bytes w) (open_w w)
           (stdout w
            ++ [ ("Error converting image to base64: " ++ str_exception e)%string;
                 ("Error in main function: " ++ str_exception e)%string ])%list
           (stderr w))
  end.
Proof.
  destruct (read_bytes w OpenrouterImage.IMAGE_PATH) as [data|e] eqn:Hr.
  - unfold OpenrouterImage.main. unfold bind at 1.
    rewrite (image_to_base64_readable _ _ _ _ Hr). reflexivity.
  - unfold OpenrouterImage.main. unfold bind at 1.
    rewrite (image_to_base64_unreadable _ _ _ _ Hr).
    unfold print. cbn [snd stdout stderr path_exists read_bytes open_w str_exception].
    rewrite <- app_assoc. reflexivity.
Qed.

(** ** [str.strip] and the text of a URI file *)

Section Strip.

Lemma plain_not_space (c : ascii) : is_plain_char c = true -> is_space c = false.
Proof.
  destruct c as [[] [] [] [] [] [] [] []]; vm_compute; intros H;
    first [reflexivity | discriminate H].
Qed.

Lemma lstrip_spaces (s : string) : string_forall is_space s = true -> lstrip s = "".
Proof.
  induction s as [|c s IH]; [reflexivity|].
  cbn [string_forall lstrip]. rewrite andb_true_iff. intros [-> Hs]. apply IH, Hs.
Qed.

Lemma lstrip_spaces_append (b s : string) :
  string_forall is_space b = true -> lstrip (b ++ s) = lstrip s.
Proof.
  induction b as [|c b IH]; [reflexivity|].
  cbn [string_forall append lstrip]. rewrite andb_true_iff. intros [-> Hb].
  apply IH, Hb.
Qed.

Lemma rstrip_spaces (s : string) : string_forall is_space s = true -> rstrip s = "".
Proof.
  induction s as [|c s IH]; [reflexivity|].
  cbn [string_forall rstrip]. rewrite andb_true_iff. intros [Hc Hs].
  rewrite (IH Hs), Hc. reflexivity.
Qed.

Lemma rstrip_append_spaces (s a : string) :
  string_forall is_space a = true -> rstrip (s ++ a) = rstrip s.
Proof.
  intros Ha. induction s as [|c s IH].
  - cbn [append]. rewrite (rstrip_spaces _ Ha). reflexivity.
  - cbn [append rstrip]. rewrite IH. reflexivity.
Qed.

Lemma rstrip_plain (s : string) : string_forall is_plain_char s = true -> rstrip s = s.
Proof.
  induction s as [|c s IH]; [reflexivity|].
  cbn [string_forall rstrip]. rewrite andb_true_iff. intros [Hc Hs].
  rewrite (IH Hs), (plain_not_space _ Hc). destruct s; reflexivity.
Qed.

Lemma strip_padded (before u after : string) :
  string_forall is_space before = true ->
  string_forall is_space after = true ->
  string_forall is_plain_char u = true ->
  strip (before ++ u ++ after) = u.
Proof.
  intros Hb Ha Hu. unfold strip. rewrite (lstrip_spaces_append _ _ Hb).
  destruct u as [|c u].
  - cbn [append]. rewrite (lstrip_spaces _ Ha). reflexivity.
  - assert (Hc : is_space c = false).
    { apply plain_not_space. cbn [string_forall] in Hu.
      apply andb_true_iff in Hu. apply Hu. }
    cbn [append lstrip]. rewrite Hc.
    change (String c (u ++ after)) with (String c u ++ after).
    rewrite (rstrip_append_spaces _ _ Ha). apply rstrip_plain, Hu.
Qed.

End Strip.

(** X12. A file whose text is a URI returned by [convert_image_to_base64],
    with any white space before and after it (the line feed a shell
    redirection leaves, say), is sent by [send_image_from_base64_file] with
    exactly that URI as the image URL of the request. *)
Theorem base64_file_read_back
    (completion : Type)
    (read_text : string -> M (string + exception))
    (create : OpenrouterImage.chat_request -> M (completion + string))
    (content : completion -> string + string)
    (base64_file_path question : string) (w w' : world)
    (image_path : string) (w0 : world) (u before after : string) :
  fst (convert_image_to_base64 image_path w0) = Some u ->
  string_forall is_space before = true ->
  string_forall is_space after = true ->
  read_text base64_file_path (snd (print "Sending image from base64 file..." w))
  = (inl (before ++ u ++ after), w') ->
  OpenrouterImage.send_image_from_base64_file completion read_text create content
    base64_file_path question w
  = OpenrouterImage.request_and_report completion create content
      (OpenrouterImage.mk_chat_request "anthropic/claude-3-opus" [] question u) w'.
Proof.
  intros Hu Hb Ha Hr.
  assert (Hplain : string_forall is_plain_char u = true).
  { destruct (read_bytes w0 image_path) as [data|e] eqn:H0.
    - rewrite (convert_readable _ _ _ H0) in Hu. injection Hu as <-.
      apply data_uri_plain.
    - rewrite (convert_unreadable _ _ _ H0) in Hu. discriminate Hu. }
  unfold OpenrouterImage.send_image_from_base64_file.
  unfold bind at 1. unfold bind at 1.
  destruct (print "Sending image from base64 file..." w) as [[] w1] eqn:Hp.
  cbn [snd] in Hr. rewrite Hr.
  rewrite (strip_padded _ _ _ Hb Ha Hplain). reflexivity.
Qed.

Lemma base64_file_read_back_witness :
  OpenrouterImage.send_image_from_base64_file string
    (fun p w => (match file_text w p with
                 | Some text => inl text
                 | None => inr UnicodeDecodeError
                 end, w))
    (fun request w => (inl (OpenrouterImage.req_image_url request), w))
    (fun answer => inl answer)
    "uri.txt" "What is it?"
    (world_of [("uri.txt",
                list_byte_of_string ("data:image/jpeg;base64,/9g=" ++ nl))] [])
  = OpenrouterImage.request_and_report string
      (fun request w => (inl (OpenrouterImage.req_image_url request), w))
      (fun answer => inl answer)
      (OpenrouterImage.mk_chat_request "anthropic/claude-3-opus" []
         "What is it?" "data:image/jpeg;base64,/9g=")
      (snd (print "Sending image from base64 file..."
              (world_of [("uri.txt",
                          list_byte_of_string ("data:image/jpeg;base64,/9g=" ++ nl))]
                        []))).
Proof.
  apply (base64_file_read_back string _ _ _ "uri.txt" "What is it?" _ _
           "photo.JPG" example_world "data:image/jpeg;base64,/9g=" "" nl);
    reflexivity.
Defined.
